(** * Book catalog browser: filtering, pagination and selection

    Shallow embedding of the catalog view controller of the book
    browser (search-form submit handler, show-more handler, list-item
    click handler and the start-up sequence), with the properties of
    its filter, pager and selection resolver.

    Conventions of the embedding
    - A JavaScript string is the sequence of its code units; the
      strings of the model are those whose code units are below 256,
      one [ascii] per code unit (Latin-1).
    - JavaScript numbers that count records or pages are integers;
      they are modelled in [Z], so a difference such as
      [matches.length - page * BOOKS_PER_PAGE] may be negative.
    - The document is a record holding the parts of the page that the
      handlers read or write. *)

From Stdlib Require Import ZArith List Ascii String Bool Lia.
From stdpp Require Import base list strings gmap.

Open Scope string_scope.
Open Scope list_scope.
Open Scope Z_scope.

(** ** JavaScript strings *)

Module JsString.

(** Code units with a lower-case counterpart 32 positions up:
    A-Z, and the Latin-1 capitals U+00C0-U+00DE except U+00D7. *)
Definition isUpper (c : ascii) : bool :=
  let n := N_of_ascii c in
  ((65 <=? n) && (n <=? 90) ||
   (192 <=? n) && (n <=? 222) && negb (n =? 215))%N.

Definition lowerChar (c : ascii) : ascii :=
  if isUpper c then ascii_of_N (N_of_ascii c + 32) else c.

(** [String.prototype.toLowerCase] *)
Fixpoint toLowerCase (s : string) : string :=
  match s with
  | EmptyString => EmptyString
  | String c s' => String (lowerChar c) (toLowerCase s')
  end.

(** WhiteSpace and LineTerminator code units below 256:
    TAB, LF, VT, FF, CR, SP and NBSP. *)
Definition isWhiteSpace (c : ascii) : bool :=
  let n := N_of_ascii c in
  ((9 <=? n) && (n <=? 13) || (n =? 32) || (n =? 160))%N.

Fixpoint trimStart (s : string) : string :=
  match s with
  | EmptyString => EmptyString
  | String c s' => if isWhiteSpace c then trimStart s' else s
  end.

Fixpoint trimEnd (s : string) : string :=
  match s with
  | EmptyString => EmptyString
  | String c s' =>
      let r := trimEnd s' in
      if isWhiteSpace c && String.eqb r EmptyString
      then EmptyString
      else String c r
  end.

(** [String.prototype.trim] *)
Definition trim (s : string) : string := trimEnd (trimStart s).

(** [String.prototype.includes], searching from position 0. *)
Fixpoint includes (s pat : string) : bool :=
  String.prefix pat s ||
  match s with
  | EmptyString => false
  | String _ s' => includes s' pat
  end.

Fixpoint allWhiteSpace (s : string) : bool :=
  match s with
  | EmptyString => true
  | String c s' => isWhiteSpace c && allWhiteSpace s'
  end.

(** Code unit at an index, [None] out of range. *)
Fixpoint charAt (s : string) (i : nat) : option ascii :=
  match s, i with
  | EmptyString, _ => None
  | String c _, O => Some c
  | String _ s', S i' => charAt s' i'
  end.

End JsString.

Import JsString.

(** ** JavaScript arrays *)

Module JsArray.

(** Relative index of [Array.prototype.slice]: a negative argument
    counts from the end, and the result is clamped to [0, len]. *)
Definition relativeIndex (len i : Z) : Z :=
  if i <? 0 then Z.max (len + i) 0 else Z.min i len.

(** [Array.prototype.slice(start, end)] *)
Definition slice {A : Type} (l : list A) (start stop : Z) : list A :=
  let len := Z.of_nat (length l) in
  let k := relativeIndex len start in
  let final := relativeIndex len stop in
  take (Z.to_nat (final - k)) (drop (Z.to_nat k) l).

(** [Array.prototype.includes] on an array of strings. *)
Definition includes (l : list string) (x : string) : bool :=
  existsb (String.eqb x) l.

End JsArray.

(** ** The data module *)

Module Book.
Record t : Type := mk {
  id : string;
  title : string;
  author : string;
  image : string;
  description : string;
  genres : list string;
  published : string
}.
End Book.

(** What the controller imports: [books], [authors], [BOOKS_PER_PAGE],
    and the text that a template literal gives for
    [new Date(published).getFullYear()]. *)
Record Data : Type := mkData {
  books : list Book.t;
  authors : gmap string string;
  BOOKS_PER_PAGE : Z;
  fullYearText : string -> string
}.

(** ** The document *)

(** A preview button made by [createBookElement]. *)
Record Preview : Type := mkPreview {
  data_preview : string;
  preview_image : string;
  preview_title : string;
  preview_author : string
}.

(** A node on the propagation path of a click;
    [dataset_preview] is [node?.dataset?.preview]. *)
Record Node : Type := mkNode {
  dataset_preview : option string
}.

Record Document : Type := mkDocument {
  list_items : list Preview;
  list_button_disabled : bool;
  list_button_remaining : Z;
  list_message_show : bool;
  search_overlay_open : bool;
  list_active_open : bool;
  list_blur_src : string;
  list_image_src : string;
  list_title : string;
  list_subtitle : string;
  list_description : string
}.

(** The page before any script has run: an empty list, closed overlays. *)
Definition blankDocument : Document :=
  {| list_items := [];
     list_button_disabled := false;
     list_button_remaining := 0;
     list_message_show := false;
     search_overlay_open := false;
     list_active_open := false;
     list_blur_src := "";
     list_image_src := "";
     list_title := "";
     list_subtitle := "";
     list_description := "" |}.

Module Filters.
Record t : Type := mk {
  title : string;
  author : string;
  genre : string
}.
End Filters.

(** Module state: [page], [matches], and the document. *)
Record State : Type := mkState {
  page : Z;
  matches : list Book.t;
  doc : Document
}.

(** ** The controller *)

(** [authors[author]] inside a template literal. *)
Definition authorText (d : Data) (a : string) : string :=
  default "undefined" (authors d !! a).

Definition createBookElement (d : Data) (book : Book.t) : Preview :=
  {| data_preview := Book.id book;
     preview_image := Book.image book;
     preview_title := Book.title book;
     preview_author := authorText d (Book.author book) |}.

(** [displayBooks]: one element per book, appended to the list. *)
Definition displayBooks (d : Data) (bs : list Book.t) (dc : Document) : Document :=
  {| list_items := list_items dc ++ map (createBookElement d) bs;
     list_button_disabled := list_button_disabled dc;
     list_button_remaining := list_button_remaining dc;
     list_message_show := list_message_show dc;
     search_overlay_open := search_overlay_open dc;
     list_active_open := list_active_open dc;
     list_blur_src := list_blur_src dc;
     list_image_src := list_image_src dc;
     list_title := list_title dc;
     list_subtitle := list_subtitle dc;
     list_description := list_description dc |}.

Definition genreMatch (f : Filters.t) (book : Book.t) : bool :=
  String.eqb (Filters.genre f) "any" ||
  JsArray.includes (Book.genres book) (Filters.genre f).

Definition titleMatch (f : Filters.t) (book : Book.t) : bool :=
  String.eqb (trim (Filters.title f)) "" ||
  includes (toLowerCase (Book.title book)) (toLowerCase (Filters.title f)).

Definition authorMatch (f : Filters.t) (book : Book.t) : bool :=
  String.eqb (Filters.author f) "any" ||
  String.eqb (Book.author book) (Filters.author f).

(** The callback of [books.filter] in the search-form handler. *)
Definition filterCallback (f : Filters.t) (book : Book.t) : bool :=
  let genreMatch := genreMatch f book in
  let titleMatch := titleMatch f book in
  let authorMatch := authorMatch f book in
  titleMatch && authorMatch && genreMatch.

Definition searchResult (d : Data) (f : Filters.t) : list Book.t :=
  List.filter (filterCallback f) (books d).

(** [matches.length - page * BOOKS_PER_PAGE] *)
Definition remaining (d : Data) (p : Z) (ms : list Book.t) : Z :=
  Z.of_nat (length ms) - p * BOOKS_PER_PAGE d.

(** Search form submission. *)
Definition onSearchSubmit (d : Data) (f : Filters.t) (st : State) : State :=
  let result := searchResult d f in
  let page := 1 in
  let matches := result in
  let dc := doc st in
  let cleared :=
    {| list_items := [];
       list_button_disabled := list_button_disabled dc;
       list_button_remaining := list_button_remaining dc;
       list_message_show := Z.of_nat (length result) <? 1;
       search_overlay_open := search_overlay_open dc;
       list_active_open := list_active_open dc;
       list_blur_src := list_blur_src dc;
       list_image_src := list_image_src dc;
       list_title := list_title dc;
       list_subtitle := list_subtitle dc;
       list_description := list_description dc |} in
  let shown :=
    displayBooks d (JsArray.slice matches 0 (BOOKS_PER_PAGE d)) cleared in
  {| page := page;
     matches := matches;
     doc :=
       {| list_items := list_items shown;
          list_button_disabled := remaining d page matches <? 1;
          list_button_remaining := remaining d page matches;
          list_message_show := list_message_show shown;
          search_overlay_open := false;
          list_active_open := list_active_open shown;
          list_blur_src := list_blur_src shown;
          list_image_src := list_image_src shown;
          list_title := list_title shown;
          list_subtitle := list_subtitle shown;
          list_description := list_description shown |} |}.

(** Show more button. *)
Definition onShowMore (d : Data) (st : State) : State :=
  {| page := page st + 1;
     matches := matches st;
     doc :=
       displayBooks d
         (JsArray.slice (matches st)
            (page st * BOOKS_PER_PAGE d) ((page st + 1) * BOOKS_PER_PAGE d))
         (doc st) |}.

(** The show-more handler of [scripts.js], which builds the elements
    itself in a loop over the slice and appends the fragment. *)
Definition onShowMoreLoop (d : Data) (st : State) : State :=
  let fragment :=
    fold_left
      (fun fragment (book : Book.t) =>
         fragment ++
         [ {| data_preview := Book.id book;
              preview_image := Book.image book;
              preview_title := Book.title book;
              preview_author := authorText d (Book.author book) |} ])
      (JsArray.slice (matches st)
         (page st * BOOKS_PER_PAGE d) ((page st + 1) * BOOKS_PER_PAGE d))
      [] in
  let dc := doc st in
  {| page := page st + 1;
     matches := matches st;
     doc :=
       {| list_items := list_items dc ++ fragment;
          list_button_disabled := list_button_disabled dc;
          list_button_remaining := list_button_remaining dc;
          list_message_show := list_message_show dc;
          search_overlay_open := search_overlay_open dc;
          list_active_open := list_active_open dc;
          list_blur_src := list_blur_src dc;
          list_image_src := list_image_src dc;
          list_title := list_title dc;
          list_subtitle := list_subtitle dc;
          list_description := list_description dc |} |}.

(** Truthiness of [node?.dataset?.preview]: a non-empty string. *)
Definition truthy (o : option string) : bool :=
  match o with
  | Some s => negb (String.eqb s "")
  | None => false
  end.

(** [pathArray.find(node => node?.dataset?.preview)?.dataset?.preview] *)
Definition capturedId (path : list Node) : option string :=
  match List.find (fun node => truthy (dataset_preview node)) path with
  | Some node => dataset_preview node
  | None => None
  end.

(** [books.find(singleBook => singleBook.id === active)] *)
Definition findBook (d : Data) (active : string) : option Book.t :=
  List.find (fun singleBook => String.eqb (Book.id singleBook) active) (books d).

(** The detail panel opened on a book. *)
Definition openDetail (d : Data) (book : Book.t) (dc : Document) : Document :=
  {| list_items := list_items dc;
     list_button_disabled := list_button_disabled dc;
     list_button_remaining := list_button_remaining dc;
     list_message_show := list_message_show dc;
     search_overlay_open := search_overlay_open dc;
     list_active_open := true;
     list_blur_src := Book.image book;
     list_image_src := Book.image book;
     list_title := Book.title book;
     list_subtitle :=
       (authorText d (Book.author book) ++ " (" ++
        fullYearText d (Book.published book) ++ ")")%string;
     list_description := Book.description book |}.

(** Click on the list of previews. *)
Definition onListItemsClick (d : Data) (path : list Node) (st : State) : State :=
  let active := capturedId path in
  if truthy active then
    match findBook d (default "" active) with
    | Some book =>
        {| page := page st; matches := matches st;
           doc := openDetail d book (doc st) |}
    | None => st
    end
  else st.

Definition setSearchOverlayOpen (b : bool) (dc : Document) : Document :=
  {| list_items := list_items dc;
     list_button_disabled := list_button_disabled dc;
     list_button_remaining := list_button_remaining dc;
     list_message_show := list_message_show dc;
     search_overlay_open := b;
     list_active_open := list_active_open dc;
     list_blur_src := list_blur_src dc;
     list_image_src := list_image_src dc;
     list_title := list_title dc;
     list_subtitle := list_subtitle dc;
     list_description := list_description dc |}.

Definition setListActiveOpen (b : bool) (dc : Document) : Document :=
  {| list_items := list_items dc;
     list_button_disabled := list_button_disabled dc;
     list_button_remaining := list_button_remaining dc;
     list_message_show := list_message_show dc;
     search_overlay_open := search_overlay_open dc;
     list_active_open := b;
     list_blur_src := list_blur_src dc;
     list_image_src := list_image_src dc;
     list_title := list_title dc;
     list_subtitle := list_subtitle dc;
     list_description := list_description dc |}.

(** The user-interaction events whose handlers touch the list, the
    overlays of the list and the search form.  (The settings handlers
    only set the theme colours and the settings overlay.) *)
Inductive Event : Type :=
  | HeaderSearch
  | SearchCancel
  | ListClose
  | SearchSubmit (f : Filters.t)
  | ShowMore
  | ListItemsClick (path : list Node).

(** The listeners registered by [setUpEventListeners]. *)
Definition handle (d : Data) (st : State) (ev : Event) : State :=
  match ev with
  | HeaderSearch =>
      {| page := page st; matches := matches st;
         doc := setSearchOverlayOpen true (doc st) |}
  | SearchCancel =>
      {| page := page st; matches := matches st;
         doc := setSearchOverlayOpen false (doc st) |}
  | ListClose =>
      {| page := page st; matches := matches st;
         doc := setListActiveOpen false (doc st) |}
  | SearchSubmit f => onSearchSubmit d f st
  | ShowMore => onShowMore d st
  | ListItemsClick path => onListItemsClick d path st
  end.

(** Module initialisation: [page = 1], [matches = [...books]], the
    first page displayed, the button labelled and enabled or not. *)
Definition init (d : Data) : State :=
  let page := 1 in
  let matches := books d in
  let shown :=
    displayBooks d (JsArray.slice matches 0 (BOOKS_PER_PAGE d)) blankDocument in
  {| page := page;
     matches := matches;
     doc :=
       {| list_items := list_items shown;
          list_button_disabled := remaining d page matches <=? 0;
          list_button_remaining :=
            Z.of_nat (length (books d)) - BOOKS_PER_PAGE d;
          list_message_show := list_message_show shown;
          search_overlay_open := search_overlay_open shown;
          list_active_open := list_active_open shown;
          list_blur_src := list_blur_src shown;
          list_image_src := list_image_src shown;
          list_title := list_title shown;
          list_subtitle := list_subtitle shown;
          list_description := list_description shown |} |}.

(** The state after start-up followed by a sequence of events, one
    handler run to completion per event. *)
Definition run (d : Data) (evs : list Event) : State :=
  fold_left (handle d) evs (init d).

(** ** The list-item click handler of [scripts.js] *)

(** The inner loop over [books]: once [result] is set the loop is
    left; otherwise a book with the wanted identifier becomes the
    result. *)
Fixpoint bookLoop (bs : list Book.t) (preview : string)
    (result : option Book.t) : option Book.t :=
  match bs with
  | [] => result
  | singleBook :: rest =>
      match result with
      | Some _ => result
      | None =>
          bookLoop rest preview
            (if String.eqb (Book.id singleBook) preview
             then Some singleBook else None)
      end
  end.

(** The outer loop over the propagation path: once [active] is set
    the loop is left; a node with a truthy [dataset.preview] sets
    [active] to the outcome of the inner loop, which may be [null]. *)
Fixpoint pathLoop (d : Data) (pathArray : list Node)
    (active : option Book.t) : option Book.t :=
  match pathArray with
  | [] => active
  | node :: rest =>
      match active with
      | Some _ => active
      | None =>
          if truthy (dataset_preview node)
          then pathLoop d rest
                 (bookLoop (books d) (default "" (dataset_preview node)) None)
          else pathLoop d rest None
      end
  end.

Definition onListItemsClickLoop (d : Data) (path : list Node) (st : State) : State :=
  match pathLoop d path None with
  | Some active =>
      {| page := page st; matches := matches st;
         doc := openDetail d active (doc st) |}
  | None => st
  end.

(** ** The theme *)

Module Theme.

(** The two custom properties of the document element, the value of
    the theme selector and the settings overlay. *)
Record t : Type := mk {
  color_dark : string;
  color_light : string;
  settings_theme : string;
  settings_overlay_open : bool
}.

(** [theme === 'night'] for a theme that is a string or [undefined]. *)
Definition isNight (theme : option string) : bool :=
  match theme with
  | Some s => String.eqb s "night"
  | None => false
  end.

Definition updateTheme (theme : option string) (s : t) : t :=
  let darkColors := if isNight theme then "255, 255, 255" else "10, 10, 20" in
  let lightColors := if isNight theme then "10, 10, 20" else "255, 255, 255" in
  {| color_dark := darkColors;
     color_light := lightColors;
     settings_theme := settings_theme s;
     settings_overlay_open := settings_overlay_open s |}.

(** [matchMedia] is [None] where [window.matchMedia] is missing, and
    otherwise the [matches] flag of the dark colour-scheme query;
    [settings_theme] holds the value assigned to the selector. *)
Definition initializeTheme (matchMedia : option bool) (s : t) : t :=
  let theme := if default false matchMedia then "night" else "day" in
  updateTheme (Some theme)
    {| color_dark := color_dark s;
       color_light := color_light s;
       settings_theme := theme;
       settings_overlay_open := settings_overlay_open s |}.

Inductive Event : Type :=
  | HeaderSettings
  | SettingsCancel
  | SettingsSubmit (theme : option string).

Definition setOverlay (b : bool) (s : t) : t :=
  {| color_dark := color_dark s;
     color_light := color_light s;
     settings_theme := settings_theme s;
     settings_overlay_open := b |}.

(** The settings listeners; a submission carries the [theme] entry of
    the form data, [None] when the form has no such entry. *)
Definition handle (s : t) (ev : Event) : t :=
  match ev with
  | HeaderSettings => setOverlay true s
  | SettingsCancel => setOverlay false s
  | SettingsSubmit theme => setOverlay false (updateTheme theme s)
  end.

Definition run (matchMedia : option bool) (s0 : t) (evs : list Event) : t :=
  fold_left handle evs (initializeTheme matchMedia s0).

(** The theme in force: that of the last submission, or the one
    chosen at start-up. *)
Definition themeInForce (start : option string) (evs : list Event) : option string :=
  fold_left
    (fun cur ev => match ev with SettingsSubmit theme => theme | _ => cur end)
    evs start.

End Theme.

(** ** The dropdowns *)

Record OptionElement : Type := mkOption {
  option_value : string;
  option_text : string
}.

(** [populateDropdown]; [entries] is [Object.entries(items)] and
    [select] holds the options the element has already. *)
Definition populateDropdown (entries : list (string * string))
    (defaultOption : string) (select : list OptionElement) : list OptionElement :=
  let defaultElement :=
    {| option_value := "any"; option_text := defaultOption |} in
  let fragment :=
    fold_left
      (fun fragment '(id, name) =>
         fragment ++ [ {| option_value := id; option_text := name |} ])
      entries [defaultElement] in
  select ++ fragment.

(** ** The preview component *)

Module BookPreview.

(** The element: its attributes and the three parts of its shadow
    tree that [updateComponent] assigns: the text of the title, the
    text of the author and the [src] attribute of the image. *)
Record t : Type := mk {
  attributes : gmap string string;
  title_textContent : string;
  author_textContent : string;
  image_src : string
}.

Definition observedAttributes : list string :=
  ["title"; "author"; "image"; "id"].

(** The constructor: no attribute, the template with an empty title,
    an empty author and [src=""]. *)
Definition construct : t :=
  {| attributes := ∅;
     title_textContent := "";
     author_textContent := "";
     image_src := "" |}.

(** [getAttribute]; [None] is [null]. *)
Definition getAttribute (el : t) (name : string) : option string :=
  attributes el !! name.

(** Assigning to [textContent]: [null] gives the empty text. *)
Definition textAssigned (v : option string) : string := default "" v.

(** Assigning to the [src] of an image: the value is converted to a
    string, [null] to "null". *)
Definition srcAssigned (v : option string) : string := default "null" v.

Definition updateComponent (el : t) : t :=
  let title := getAttribute el "title" in
  let author := getAttribute el "author" in
  let image := getAttribute el "image" in
  {| attributes := attributes el;
     title_textContent := textAssigned title;
     author_textContent := textAssigned author;
     image_src := srcAssigned image |}.

Definition connectedCallback (el : t) : t := updateComponent el.

Definition attributeChangedCallback (el : t) : t := updateComponent el.

(** What the platform does with a custom element: a change of an
    attribute calls [attributeChangedCallback] when the attribute is
    one of [observedAttributes], and insertion into the document calls
    [connectedCallback].  [name] is the name under which the attribute
    is stored (lower case in an HTML document). *)
Inductive Op : Type :=
  | SetAttribute (name value : string)
  | RemoveAttribute (name : string)
  | Connect.

Definition observed (name : string) : bool :=
  existsb (String.eqb name) observedAttributes.

Definition withAttributes (a : gmap string string) (el : t) : t :=
  {| attributes := a;
     title_textContent := title_textContent el;
     author_textContent := author_textContent el;
     image_src := image_src el |}.

Definition apply (el : t) (op : Op) : t :=
  match op with
  | SetAttribute name value =>
      let el' := withAttributes (<[name := value]> (attributes el)) el in
      if observed name then attributeChangedCallback el' else el'
  | RemoveAttribute name =>
      let el' := withAttributes (delete name (attributes el)) el in
      if observed name then attributeChangedCallback el' else el'
  | Connect => connectedCallback el
  end.

(** The shadow tree shows the current attributes: the texts are the
    'title' and 'author' attributes, empty for a missing one, and the
    image source is the 'image' attribute, "null" for a missing one. *)
Definition inSync (el : t) : Prop :=
  title_textContent el =
    match attributes el !! "title" with Some v => v | None => "" end /\
  author_textContent el =
    match attributes el !! "author" with Some v => v | None => "" end /\
  image_src el =
    match attributes el !! "image" with Some v => v | None => "null" end.

(** The operation runs [updateComponent]. *)
Definition renders (op : Op) : bool :=
  match op with
  | SetAttribute name _ => observed name
  | RemoveAttribute name => observed name
  | Connect => true
  end.

End BookPreview.

(** ** Vocabulary of the specification *)

(** "The title contains the query as a case-insensitive substring":
    some contiguous part of the title equals the query up to case. *)
Definition containsIgnoringCase (text query : string) : Prop :=
  exists pre mid post : string,
    text = (pre ++ mid ++ post)%string /\
    toLowerCase mid = toLowerCase query.

Definition authorAccepted (f : Filters.t) (book : Book.t) : Prop :=
  Filters.author f = "any" \/ Filters.author f = Book.author book.

Definition genreAccepted (f : Filters.t) (book : Book.t) : Prop :=
  Filters.genre f = "any" \/ In (Filters.genre f) (Book.genres book).

(** The title predicate in the words of the specification. *)
Definition titleAcceptedAsSpecified (f : Filters.t) (book : Book.t) : Prop :=
  Filters.title f = "" \/
  containsIgnoringCase (Book.title book) (Filters.title f).

(** The title predicate with the query tested for emptiness after
    trimming. *)
Definition titleAccepted (f : Filters.t) (book : Book.t) : Prop :=
  trim (Filters.title f) = "" \/
  containsIgnoringCase (Book.title book) (Filters.title f).

(** [ceil(n / m)] for positive [m]. *)
Definition ceilDiv (n m : Z) : Z := (n + m - 1) / m.

(** The number of records still to reveal is positive. *)
Definition moreAvailable (d : Data) (st : State) : Prop :=
  remaining d (page st) (matches st) > 0.

(** What the list shows, in terms of the module state: the cursor is
    at least 1 and the list holds the previews of the first
    [page * BOOKS_PER_PAGE] matches, in order. *)
Definition pagerInvariant (d : Data) (st : State) : Prop :=
  1 <= page st /\
  list_items (doc st) =
  map (createBookElement d)
    (take (Z.to_nat (page st * BOOKS_PER_PAGE d)) (matches st)).

(** The block of matches that the next reveal shows. *)
Definition nextBlock (d : Data) (st : State) : list Book.t :=
  take (Z.to_nat (BOOKS_PER_PAGE d))
    (drop (Z.to_nat (page st * BOOKS_PER_PAGE d)) (matches st)).

(** The detail panel is open and shows the fields of a book. *)
Definition detailOf (d : Data) (book : Book.t) (dc : Document) : Prop :=
  list_active_open dc = true /\
  list_blur_src dc = Book.image book /\
  list_image_src dc = Book.image book /\
  list_title dc = Book.title book /\
  list_subtitle dc =
    (authorText d (Book.author book) ++ " (" ++
     fullYearText d (Book.published book) ++ ")")%string /\
  list_description dc = Book.description book.

(** A click changed nothing but the detail panel, which shows [book]. *)
Definition selected (d : Data) (book : Book.t) (st st' : State) : Prop :=
  detailOf d book (doc st') /\
  page st' = page st /\
  matches st' = matches st /\
  list_items (doc st') = list_items (doc st) /\
  list_button_disabled (doc st') = list_button_disabled (doc st).

(** A click opened the detail panel on [book] and changed nothing
    else: the cursor, the matches and every part of the document
    other than the panel are as before. *)
Definition opensOnly (d : Data) (book : Book.t) (st st' : State) : Prop :=
  detailOf d book (doc st') /\
  page st' = page st /\
  matches st' = matches st /\
  list_items (doc st') = list_items (doc st) /\
  list_button_disabled (doc st') = list_button_disabled (doc st) /\
  list_button_remaining (doc st') = list_button_remaining (doc st) /\
  list_message_show (doc st') = list_message_show (doc st) /\
  search_overlay_open (doc st') = search_overlay_open (doc st).

(** The number of reveals since the last filter submission. *)
Definition countClick (n : Z) (ev : Event) : Z :=
  match ev with
  | SearchSubmit _ => 0
  | ShowMore => n + 1
  | _ => n
  end.

Definition clicksSinceSubmit (evs : list Event) : Z :=
  fold_left countClick evs 0.

(** The events that leave the pager alone. *)
Definition pagerEvent (ev : Event) : bool :=
  match ev with
  | SearchSubmit _ | ShowMore => true
  | _ => false
  end.

(** The book that a node of the path resolves to, if any. *)
Definition resolves (d : Data) (node : Node) : bool :=
  negb (truthy (dataset_preview node)) ||
  match findBook d (default "" (dataset_preview node)) with
  | Some _ => true
  | None => false
  end.

(** The query [inner] occurs in the query [outer]. *)
Definition queryWithin (inner outer : string) : Prop :=
  exists pre post : string, outer = (pre ++ inner ++ post)%string.

(** A filter with the same title query and no other constraint. *)
Definition titleOnly (f : Filters.t) : Filters.t :=
  {| Filters.title := Filters.title f;
     Filters.author := "any";
     Filters.genre := "any" |}.

(** The option made from an entry of [Object.entries]. *)
Definition optionOf (entry : string * string) : OptionElement :=
  {| option_value := fst entry; option_text := snd entry |}.

(** The choice of an author in the search form, nothing else filled in. *)
Definition authorChoice (o : OptionElement) : Filters.t :=
  {| Filters.title := "";
     Filters.author := option_value o;
     Filters.genre := "any" |}.

(** ** A small catalog *)

Definition theHobbit : Book.t :=
  {| Book.id := "b1"; Book.title := "The Hobbit"; Book.author := "a1";
     Book.image := "hobbit.jpg"; Book.description := "There and back again";
     Book.genres := ["g1"; "g2"]; Book.published := "1937-09-21T00:00:00.000Z" |}.

Definition dune : Book.t :=
  {| Book.id := "b2"; Book.title := "Dune"; Book.author := "a2";
     Book.image := "dune.jpg"; Book.description := "Arrakis";
     Book.genres := ["g3"]; Book.published := "1965-08-01T00:00:00.000Z" |}.

Definition theTwoTowers : Book.t :=
  {| Book.id := "b3"; Book.title := "The Two Towers"; Book.author := "a1";
     Book.image := "towers.jpg"; Book.description := "Second volume";
     Book.genres := ["g1"]; Book.published := "1954-11-11T00:00:00.000Z" |}.

Definition sampleAuthors : gmap string string :=
  <["a1" := "J. R. R. Tolkien"]> (<["a2" := "Frank Herbert"]> ∅).

(** Three books, two per page. *)
Definition sampleData : Data :=
  {| books := [theHobbit; dune; theTwoTowers];
     authors := sampleAuthors;
     BOOKS_PER_PAGE := 2;
     fullYearText := fun p => substring 0 4 p |}.

Definition anyFilter : Filters.t :=
  {| Filters.title := ""; Filters.author := "any"; Filters.genre := "any" |}.

Definition blankTitleFilter : Filters.t :=
  {| Filters.title := " "; Filters.author := "any"; Filters.genre := "any" |}.

Definition paddedTitleFilter : Filters.t :=
  {| Filters.title := " two "; Filters.author := "any"; Filters.genre := "any" |}.

Definition theFilter : Filters.t :=
  {| Filters.title := "the"; Filters.author := "any"; Filters.genre := "any" |}.

(** A click on the preview of a book: the image, the button carrying
    [data-preview], the list, the body. *)
Definition clickOn (ident : string) : list Node :=
  [ {| dataset_preview := None |};
    {| dataset_preview := Some ident |};
    {| dataset_preview := None |};
    {| dataset_preview := None |} ].

Definition sampleAuthorEntries : list (string * string) :=
  [("a1", "J. R. R. Tolkien"); ("a2", "Frank Herbert")].

(** A click whose innermost identifier names no book, inside an
    element whose identifier does. *)
Definition nestedClick : list Node :=
  [ {| dataset_preview := Some "b9" |};
    {| dataset_preview := None |};
    {| dataset_preview := Some "b2" |} ].

Definition blankTheme : Theme.t :=
  {| Theme.color_dark := ""; Theme.color_light := "";
     Theme.settings_theme := ""; Theme.settings_overlay_open := false |}.

(** ** Checks on the small catalog *)

Example toLowerCase_ex : toLowerCase "The Hobbit" = "the hobbit".
Proof. reflexivity. Qed.

Example trim_ex : trim "  a b  " = "a b".
Proof. reflexivity. Qed.

Example includes_ex : JsString.includes "the two towers" "two" = true.
Proof. reflexivity. Qed.

Example slice_ex : JsArray.slice [1; 2; 3; 4; 5] 2 4 = [3; 4].
Proof. reflexivity. Qed.

Example slice_past_end_ex : JsArray.slice [1; 2; 3] 2 4 = [3].
Proof. reflexivity. Qed.

Example slice_negative_ex : JsArray.slice [1; 2; 3; 4; 5] (-2) 5 = [4; 5].
Proof. reflexivity. Qed.

Example search_the_ex :
  map Book.title (searchResult sampleData theFilter) =
  ["The Hobbit"; "The Two Towers"].
Proof. reflexivity. Qed.

Example init_ex :
  map data_preview (list_items (doc (init sampleData))) = ["b1"; "b2"] /\
  list_button_remaining (doc (init sampleData)) = 1 /\
  list_button_disabled (doc (init sampleData)) = false.
Proof. vm_compute. auto. Qed.

Example click_ex :
  list_subtitle (doc (run sampleData [ListItemsClick (clickOn "b2")])) =
  "Frank Herbert (1965)".
Proof. vm_compute. reflexivity. Qed.

(** ** Facts about strings *)

Section StringFacts.

Local Open Scope string_scope.

Lemma toLowerCase_app (a b : string) :
  toLowerCase (a ++ b) = toLowerCase a ++ toLowerCase b.
Proof.
  induction a as [|c a IH]; simpl; [reflexivity|].
  now rewrite IH.
Qed.

Lemma toLowerCase_length (s : string) :
  String.length (toLowerCase s) = String.length s.
Proof.
  induction s as [|c s IH]; simpl; congruence.
Qed.

(** A split of the lower-cased text comes from a split of the text. *)
Lemma toLowerCase_split (t x y : string) :
  toLowerCase t = x ++ y ->
  exists a b, t = a ++ b /\ toLowerCase a = x /\ toLowerCase b = y.
Proof.
  revert t. induction x as [|c x IH]; intros t H.
  - exists "", t. auto.
  - destruct t as [|c' t]; simpl in H; [discriminate|].
    injection H as Hc Ht.
    destruct (IH t Ht) as (a & b & -> & Ha & Hb).
    exists (String c' a), b. simpl. rewrite Ha, Hc. auto.
Qed.

Lemma prefix_iff (p s : string) :
  String.prefix p s = true <-> exists post, s = p ++ post.
Proof.
  revert s. induction p as [|c p IH]; intros s.
  - split; [intros _; now exists s | intros _; now destruct s].
  - destruct s as [|c' s]; simpl.
    + split; [discriminate | intros [post H]; discriminate].
    + destruct (Ascii.ascii_dec c c') as [->|Hne].
      * rewrite IH. split; intros [post H]; exists post.
        -- now rewrite H.
        -- now injection H.
      * split; [discriminate|].
        intros [post H]. injection H as Hc _. congruence.
Qed.

Lemma includes_iff (s p : string) :
  includes s p = true <-> exists pre post, s = pre ++ p ++ post.
Proof.
  induction s as [|c s IH]; cbn [includes].
  - rewrite orb_false_r, prefix_iff. split.
    + intros [post H]. now exists "", post.
    + intros (pre & post & H). destruct pre; [now exists post|discriminate].
  - rewrite orb_true_iff, prefix_iff, IH. split.
    + intros [[post H]|(pre & post & H)].
      * now exists "", post.
      * exists (String c pre), post. cbn [append]. now rewrite H.
    + intros (pre & post & H). destruct pre as [|c' pre].
      * left. now exists post.
      * right. simpl in H. injection H as _ H. now exists pre, post.
Qed.

(** The comparison made by the code is the case-insensitive
    containment of the specification. *)
Lemma includes_toLowerCase_iff (t q : string) :
  includes (toLowerCase t) (toLowerCase q) = true <->
  containsIgnoringCase t q.
Proof.
  rewrite includes_iff. unfold containsIgnoringCase. split.
  - intros (x & y & H).
    apply toLowerCase_split in H as (pre & r & -> & _ & Hr).
    apply toLowerCase_split in Hr as (mid & post & -> & Hm & _).
    now exists pre, mid, post.
  - intros (pre & mid & post & -> & Hm).
    exists (toLowerCase pre), (toLowerCase post).
    now rewrite !toLowerCase_app, Hm.
Qed.

Lemma allWhiteSpace_trimStart (s : string) :
  allWhiteSpace (trimStart s) = allWhiteSpace s.
Proof.
  induction s as [|c s IH]; simpl; [reflexivity|].
  destruct (isWhiteSpace c) eqn:E; simpl; [assumption|].
  now rewrite E.
Qed.

Lemma trimEnd_empty_iff (s : string) :
  trimEnd s = "" <-> allWhiteSpace s = true.
Proof.
  induction s as [|c s IH]; simpl; [tauto|].
  destruct (isWhiteSpace c); simpl.
  - destruct (String.eqb_spec (trimEnd s) "") as [E|E].
    + split; [intros _; now apply IH | reflexivity].
    + split; [discriminate|]. intros H. now apply IH in H.
  - split; discriminate.
Qed.

(** A query trims to the empty string exactly when it consists of
    white space only. *)
Lemma trim_empty_iff (s : string) :
  trim s = "" <-> allWhiteSpace s = true.
Proof.
  unfold trim. now rewrite trimEnd_empty_iff, allWhiteSpace_trimStart.
Qed.

Lemma lowerChar_whiteSpace (c : ascii) :
  isWhiteSpace (lowerChar c) = true -> lowerChar c = c.
Proof.
  destruct c as [[] [] [] [] [] [] [] []]; vm_compute;
    solve [reflexivity | discriminate].
Qed.

Lemma whiteSpace_lowerChar (c : ascii) :
  isWhiteSpace c = true -> lowerChar c = c.
Proof.
  destruct c as [[] [] [] [] [] [] [] []]; vm_compute;
    solve [reflexivity | discriminate].
Qed.

(** Case folding never produces or removes white space: where the
    query has a white-space code unit, a text equal to it up to case
    has the same code unit. *)
Lemma toLowerCase_whiteSpace_charAt (mid q : string) :
  toLowerCase mid = toLowerCase q ->
  forall (k : nat) (c : ascii),
    charAt q k = Some c -> isWhiteSpace c = true -> charAt mid k = Some c.
Proof.
  revert q. induction mid as [|m mid IH]; intros [|c' q] H k c Hk Hc;
    simpl in *; try discriminate.
  injection H as Hm Hrest.
  destruct k as [|k].
  - injection Hk as ->.
    rewrite (whiteSpace_lowerChar c Hc) in Hm.
    f_equal. rewrite <- Hm. symmetry. apply lowerChar_whiteSpace.
    now rewrite Hm.
  - eapply IH; eauto.
Qed.

End StringFacts.

(** ** Facts about arrays *)

Section ArrayFacts.

Context {A : Type}.
Implicit Types l : list A.

Lemma relativeIndex_le_len (len i : Z) :
  0 <= len -> JsArray.relativeIndex len i <= len.
Proof. unfold JsArray.relativeIndex. destruct (i <? 0) eqn:E; lia. Qed.

(** With ordered, non-negative bounds [slice] is a [take] of a [drop]. *)
Lemma slice_take_drop l (a b : Z) :
  0 <= a -> a <= b ->
  JsArray.slice l a b = take (Z.to_nat (b - a)) (drop (Z.to_nat a) l).
Proof.
  intros Ha Hab. unfold JsArray.slice, JsArray.relativeIndex.
  replace (a <? 0) with false by lia.
  replace (b <? 0) with false by lia.
  destruct (Z_le_gt_dec a (Z.of_nat (length l))) as [Hl|Hl].
  - rewrite (Z.min_l a) by lia.
    destruct (Z_le_gt_dec b (Z.of_nat (length l))) as [Hb|Hb].
    + now rewrite (Z.min_l b) by lia.
    + rewrite (Z.min_r b) by lia.
      rewrite !take_ge; [reflexivity| |]; rewrite length_drop; lia.
  - rewrite !drop_ge by lia. now rewrite !take_nil.
Qed.

Lemma slice_from_zero l (n : Z) :
  0 <= n -> JsArray.slice l 0 n = take (Z.to_nat n) l.
Proof.
  intros Hn. rewrite slice_take_drop by lia.
  now rewrite Z.sub_0_r.
Qed.

(** Nothing is left from the end of the array on, whatever the
    second bound. *)
Lemma slice_beyond l (a b : Z) :
  Z.of_nat (length l) <= a -> JsArray.slice l a b = [].
Proof.
  intros Ha. unfold JsArray.slice.
  pose proof (relativeIndex_le_len (Z.of_nat (length l)) b) as Hb.
  assert (JsArray.relativeIndex (Z.of_nat (length l)) a = Z.of_nat (length l)) as ->.
  { unfold JsArray.relativeIndex. replace (a <? 0) with false by lia. lia. }
  replace (Z.to_nat _) with 0%nat by lia. apply take_0.
Qed.

(** Revealing one more page extends the revealed prefix by the next
    block. *)
Lemma take_next_page l (p n : Z) :
  0 <= p -> 0 <= n ->
  take (Z.to_nat ((p + 1) * n)) l =
  take (Z.to_nat (p * n)) l ++ JsArray.slice l (p * n) ((p + 1) * n).
Proof.
  intros Hp Hn. rewrite slice_take_drop by nia.
  rewrite take_take_drop. f_equal. nia.
Qed.

Lemma filter_sublist (f : A -> bool) l :
  List.filter f l `sublist_of` l.
Proof.
  induction l as [|x l IH]; simpl; [constructor|].
  destruct (f x); now constructor.
Qed.

(** A sublist keeps relative positions: two entries of the sublist
    are found in the list at positions in the same order. *)
Lemma sublist_positions (l1 l2 : list A) :
  l1 `sublist_of` l2 ->
  forall (i j : nat) (x y : A),
    (i < j)%nat -> l1 !! i = Some x -> l1 !! j = Some y ->
    exists i' j' : nat,
      (i' < j')%nat /\ l2 !! i' = Some x /\ l2 !! j' = Some y.
Proof.
  induction 1 as [|z l1 l2 Hsub IH|z l1 l2 Hsub IH]; intros i j x y Hij Hi Hj.
  - discriminate.
  - destruct j as [|j]; [lia|]. destruct i as [|i].
    + simpl in Hi, Hj. injection Hi as ->.
      apply list_elem_of_lookup_2 in Hj.
      apply (fun H => elem_of_sublist _ _ _ H Hsub) in Hj.
      apply list_elem_of_lookup_1 in Hj as [j' Hj'].
      exists 0%nat, (S j'). repeat split; [lia|assumption].
    + destruct (IH i j x y) as (i' & j' & ? & ? & ?); [lia|assumption..|].
      exists (S i'), (S j'). repeat split; [lia|assumption..].
  - destruct (IH i j x y) as (i' & j' & ? & ? & ?); [assumption..|].
    exists (S i'), (S j'). repeat split; [lia|assumption..].
Qed.

End ArrayFacts.

(** ** The filter evaluator *)

Section FilterEvaluator.

Variable d : Data.
Implicit Types (f : Filters.t) (book : Book.t).

Lemma titleMatch_iff f book :
  titleMatch f book = true <-> titleAccepted f book.
Proof.
  unfold titleMatch, titleAccepted.
  now rewrite orb_true_iff, String.eqb_eq, includes_toLowerCase_iff.
Qed.

Lemma authorMatch_iff f book :
  authorMatch f book = true <-> authorAccepted f book.
Proof.
  unfold authorMatch, authorAccepted.
  rewrite orb_true_iff, !String.eqb_eq. intuition congruence.
Qed.

Lemma genreMatch_iff f book :
  genreMatch f book = true <-> genreAccepted f book.
Proof.
  unfold genreMatch, genreAccepted, JsArray.includes.
  rewrite orb_true_iff, String.eqb_eq, existsb_exists.
  split; (intros [H|H]; [now left|right]).
  - destruct H as (g & Hin & Hg). apply String.eqb_eq in Hg. now subst.
  - exists (Filters.genre f). split; [assumption|apply String.eqb_refl].
Qed.

Lemma filterCallback_iff f book :
  filterCallback f book = true <->
  titleAccepted f book /\ authorAccepted f book /\ genreAccepted f book.
Proof.
  unfold filterCallback. cbv zeta.
  rewrite !andb_true_iff, titleMatch_iff, authorMatch_iff, genreMatch_iff.
  tauto.
Qed.

(** C1, as amended: a book of the dataset is in the result of a
    query if and only if the title query is empty after trimming
    white space or the title contains the query, as typed, up to
    case; the author query is 'any' or the book's author; and the
    genre query is 'any' or one of the book's genres. *)
Theorem C1_filter_membership f book :
  In book (searchResult d f) <->
  In book (books d) /\
  titleAccepted f book /\ authorAccepted f book /\ genreAccepted f book.
Proof.
  unfold searchResult. now rewrite filter_In, filterCallback_iff.
Qed.

(** C4: the result of a query is a subsequence of the dataset: it is
    obtained from the dataset by deleting records, so every result
    record is a dataset record and any two result records stand in
    the dataset in the same order. *)
Theorem C4_result_is_subsequence f :
  searchResult d f `sublist_of` books d /\
  (forall book, In book (searchResult d f) -> In book (books d)) /\
  (forall (i j : nat) (x y : Book.t),
      (i < j)%nat ->
      searchResult d f !! i = Some x ->
      searchResult d f !! j = Some y ->
      exists i' j' : nat,
        (i' < j')%nat /\ books d !! i' = Some x /\ books d !! j' = Some y).
Proof.
  pose proof (filter_sublist (filterCallback f) (books d)) as Hsub.
  split; [exact Hsub|]. split.
  - intros book H. now apply filter_In in H.
  - now apply sublist_positions.
Qed.

(** C10: a title query of white space only accepts every book; a
    query that does not trim to the empty string is compared as
    typed, lower-cased but not trimmed, so a matching title has,
    up to case, the whole query in it, with each white-space code
    unit of the query at its place. *)
Theorem C10_whitespace_title_query f book :
  (allWhiteSpace (Filters.title f) = true -> titleMatch f book = true) /\
  (trim (Filters.title f) <> "" ->
   titleMatch f book =
   includes (toLowerCase (Book.title book)) (toLowerCase (Filters.title f))) /\
  (trim (Filters.title f) <> "" ->
   titleMatch f book = true ->
   exists pre mid post : string,
     Book.title book = (pre ++ mid ++ post)%string /\
     toLowerCase mid = toLowerCase (Filters.title f) /\
     forall (k : nat) (c : ascii),
       charAt (Filters.title f) k = Some c ->
       isWhiteSpace c = true ->
       charAt mid k = Some c).
Proof.
  assert (trim (Filters.title f) <> "" ->
          titleMatch f book =
          includes (toLowerCase (Book.title book))
            (toLowerCase (Filters.title f))) as Hcmp.
  { intros Hne. unfold titleMatch.
    now destruct (String.eqb_spec (trim (Filters.title f)) ""). }
  split; [|split; [exact Hcmp|]].
  - intros Hws. apply titleMatch_iff. left. now apply trim_empty_iff.
  - intros Hne Hm. rewrite (Hcmp Hne) in Hm.
    apply includes_toLowerCase_iff in Hm as (pre & mid & post & Ht & Hmid).
    exists pre, mid, post. repeat split; [assumption..|].
    now apply toLowerCase_whiteSpace_charAt.
Qed.

End FilterEvaluator.

(** C1 as stated fails: a query of one space is not the empty string
    and does not occur in "Dune", yet the book is in the result. *)
Lemma C1_counterexample :
  ~ (In dune (searchResult sampleData blankTitleFilter) <->
     titleAcceptedAsSpecified blankTitleFilter dune /\
     authorAccepted blankTitleFilter dune /\
     genreAccepted blankTitleFilter dune).
Proof.
  intros [H _].
  destruct H as [[E|C] _].
  - vm_compute. auto.
  - discriminate E.
  - apply includes_toLowerCase_iff in C. vm_compute in C. discriminate C.
Qed.

Lemma C1_filter_membership_witness :
  In theTwoTowers (searchResult sampleData theFilter).
Proof.
  apply (C1_filter_membership sampleData theFilter theTwoTowers).
  split; [vm_compute; auto|].
  split; [|split; left; reflexivity].
  right. exists "", "The", " Two Towers". split; reflexivity.
Defined.

Lemma C4_result_is_subsequence_witness :
  exists i' j' : nat,
    (i' < j')%nat /\
    books sampleData !! i' = Some theHobbit /\
    books sampleData !! j' = Some theTwoTowers.
Proof.
  apply (proj2 (proj2 (C4_result_is_subsequence sampleData theFilter)) 0%nat 1%nat);
    [lia | reflexivity | reflexivity].
Defined.

Lemma C10_whitespace_title_query_witness :
  titleMatch blankTitleFilter dune = true /\
  titleMatch paddedTitleFilter dune = false /\
  exists pre mid post : string,
    Book.title theTwoTowers = (pre ++ mid ++ post)%string /\
    toLowerCase mid = toLowerCase (Filters.title paddedTitleFilter) /\
    forall (k : nat) (c : ascii),
      charAt (Filters.title paddedTitleFilter) k = Some c ->
      isWhiteSpace c = true ->
      charAt mid k = Some c.
Proof.
  split; [|split].
  - apply (proj1 (C10_whitespace_title_query blankTitleFilter dune)).
    reflexivity.
  - rewrite (proj1 (proj2 (C10_whitespace_title_query paddedTitleFilter dune)));
      [reflexivity | vm_compute; discriminate].
  - apply (proj2 (proj2 (C10_whitespace_title_query paddedTitleFilter theTwoTowers)));
      [vm_compute; discriminate | reflexivity].
Defined.

(** ** The pager *)

Section Pager.

Variable d : Data.
Implicit Types (st : State) (f : Filters.t) (ev : Event).

Lemma displayBooks_nil (dc : Document) : displayBooks d [] dc = dc.
Proof.
destruct dc. unfold displayBooks. simpl. now rewrite app_nil_r.
Qed.

Lemma fragment_loop (g : Book.t -> Preview) (bs : list Book.t) (acc : list Preview) :
  fold_left (fun fragment book => fragment ++ [g book]) bs acc = acc ++ map g bs.
Proof.
revert acc. induction bs as [|b bs IH]; intros acc; simpl.
- now rewrite app_nil_r.
- rewrite IH, <- app_assoc. reflexivity.
Qed.

(** The two show-more handlers do the same. *)
Lemma onShowMoreLoop_eq st : onShowMoreLoop d st = onShowMore d st.
Proof.
unfold onShowMoreLoop, onShowMore, displayBooks.
rewrite (fragment_loop (createBookElement d)). reflexivity.
Qed.

Lemma init_invariant : 0 <= BOOKS_PER_PAGE d -> pagerInvariant d (init d).
Proof.
intros Hps. split; simpl; [lia|].
rewrite slice_from_zero by assumption.
now rewrite Z.mul_1_l.
Qed.

Lemma onSearchSubmit_invariant f st :
  0 <= BOOKS_PER_PAGE d -> pagerInvariant d (onSearchSubmit d f st).
Proof.
intros Hps. split; simpl; [lia|].
rewrite slice_from_zero by assumption.
now rewrite Z.mul_1_l.
Qed.

Lemma onShowMore_invariant st :
  0 <= BOOKS_PER_PAGE d -> pagerInvariant d st -> pagerInvariant d (onShowMore d st).
Proof.
intros Hps [Hpage Hitems]. split; simpl; [lia|].
rewrite Hitems, <- map_app. f_equal.
symmetry. apply take_next_page; lia.
Qed.

Lemma handle_invariant st ev :
  0 <= BOOKS_PER_PAGE d -> pagerInvariant d st -> pagerInvariant d (handle d st ev).
Proof.
intros Hps Hinv. destruct ev as [| | |f| |path]; simpl.
- exact Hinv.
- exact Hinv.
- exact Hinv.
- now apply onSearchSubmit_invariant.
- now apply onShowMore_invariant.
- unfold onListItemsClick.
  destruct (truthy (capturedId path)); [|exact Hinv].
  destruct (findBook d _); exact Hinv.
Qed.

Lemma fold_handle_invariant (evs : list Event) st :
  0 <= BOOKS_PER_PAGE d ->
  pagerInvariant d st -> pagerInvariant d (fold_left (handle d) evs st).
Proof.
intros Hps. revert st. induction evs as [|ev evs IH]; intros st Hinv; simpl.
- exact Hinv.
- apply IH. now apply handle_invariant.
Qed.

Lemma run_invariant (evs : list Event) :
  0 <= BOOKS_PER_PAGE d -> pagerInvariant d (run d evs).
Proof.
intros Hps. apply fold_handle_invariant; [assumption|].
now apply init_invariant.
Qed.

(** C3: after start-up and any sequence of events, the number of
    previews in the list is the smaller of [page * BOOKS_PER_PAGE]
    and the number of matches (for a page size that is not negative). *)
Theorem C3_rendered_count (evs : list Event) :
  0 <= BOOKS_PER_PAGE d ->
  Z.of_nat (length (list_items (doc (run d evs)))) =
  Z.min (page (run d evs) * BOOKS_PER_PAGE d)
        (Z.of_nat (length (matches (run d evs)))).
Proof.
intros Hps. destruct (run_invariant evs Hps) as [Hpage Hitems].
rewrite Hitems, length_map, length_take. lia.
Qed.

(** C6: a filter submission, from any state, sets the cursor to 1,
    makes the filtered result the match list, and leaves in the list
    the previews of the first [BOOKS_PER_PAGE] records of that result,
    in order, and nothing of what was shown before (for a page size
    that is not negative). *)
Theorem C6_submit_resets f st :
  0 <= BOOKS_PER_PAGE d ->
  page (onSearchSubmit d f st) = 1 /\
  matches (onSearchSubmit d f st) = searchResult d f /\
  list_items (doc (onSearchSubmit d f st)) =
  map (createBookElement d)
    (take (Z.to_nat (BOOKS_PER_PAGE d)) (searchResult d f)).
Proof.
intros Hps. split; [reflexivity|]. split; [reflexivity|].
simpl. now rewrite slice_from_zero by assumption.
Qed.

Lemma nextBlock_slice st :
  0 <= BOOKS_PER_PAGE d -> 0 <= page st ->
  JsArray.slice (matches st)
    (page st * BOOKS_PER_PAGE d) ((page st + 1) * BOOKS_PER_PAGE d) =
  nextBlock d st.
Proof.
intros Hps Hpage. rewrite slice_take_drop by nia.
unfold nextBlock. do 2 f_equal. lia.
Qed.

(** C7: with records remaining, show-more appends to the list the
    previews of the matches at the indices from [page * BOOKS_PER_PAGE]
    up to, and without, [(page + 1) * BOOKS_PER_PAGE], as far as they
    exist; what the list held stays in front, unchanged; the cursor
    grows by one and the matches stay.  The handler of [scripts.js]
    does the same. *)
Theorem C7_show_more_appends_next_block st :
  0 < BOOKS_PER_PAGE d -> 1 <= page st -> moreAvailable d st ->
  list_items (doc (onShowMore d st)) =
    list_items (doc st) ++ map (createBookElement d) (nextBlock d st) /\
  nextBlock d st <> [] /\
  (length (nextBlock d st) <= Z.to_nat (BOOKS_PER_PAGE d))%nat /\
  (forall j : nat,
      (j < Z.to_nat (BOOKS_PER_PAGE d))%nat ->
      nextBlock d st !! j =
      matches st !! (Z.to_nat (page st * BOOKS_PER_PAGE d) + j)%nat) /\
  page (onShowMore d st) = page st + 1 /\
  matches (onShowMore d st) = matches st /\
  onShowMoreLoop d st = onShowMore d st.
Proof.
intros Hps Hpage Hmore. unfold moreAvailable, remaining in Hmore.
repeat split.
- simpl. rewrite nextBlock_slice by lia. reflexivity.
- intros Hnil. apply (f_equal length) in Hnil.
  unfold nextBlock in Hnil. rewrite length_take, length_drop in Hnil.
  simpl in Hnil. nia.
- unfold nextBlock. rewrite length_take. lia.
- intros j Hj. unfold nextBlock.
  rewrite lookup_take_lt by assumption. apply lookup_drop.
- apply onShowMoreLoop_eq.
Qed.

(** With nothing left to reveal, show-more appends nothing. *)
Lemma onShowMore_exhausted st :
  remaining d (page st) (matches st) <= 0 ->
  onShowMore d st =
  {| page := page st + 1; matches := matches st; doc := doc st |}.
Proof.
intros Hrem. unfold remaining in Hrem. unfold onShowMore.
rewrite slice_beyond by lia. now rewrite displayBooks_nil.
Qed.

Lemma button_after_submit f st :
  list_button_disabled (doc (onSearchSubmit d f st)) = true <->
  remaining d (page (onSearchSubmit d f st)) (matches (onSearchSubmit d f st)) <= 0.
Proof. simpl. rewrite Z.ltb_lt. lia. Qed.

Lemma button_after_init :
  list_button_disabled (doc (init d)) = true <->
  remaining d (page (init d)) (matches (init d)) <= 0.
Proof. simpl. now rewrite Z.leb_le. Qed.

Lemma clicks_page_matches (k : nat) st :
  page (fold_left (handle d) (repeat ShowMore k) st) = page st + Z.of_nat k /\
  matches (fold_left (handle d) (repeat ShowMore k) st) = matches st.
Proof.
revert st. induction k as [|k IH]; intros st.
- simpl. split; [lia|reflexivity].
- cbn [repeat fold_left handle]. destruct (IH (onShowMore d st)) as [-> ->].
  simpl. split; [lia|reflexivity].
Qed.

Lemma ceilDiv_covers (n m : Z) : 0 < m -> n <= ceilDiv n m * m.
Proof.
intros Hm. unfold ceilDiv.
pose proof (Z.mul_succ_div_gt (n + m - 1) m Hm). lia.
Qed.

(** After a submission, [ceil(|results| / BOOKS_PER_PAGE) - 1] reveals
    put the previews of all matches in the list. *)
Lemma reveal_exhausts f st0 :
  0 < BOOKS_PER_PAGE d ->
  let n := Z.of_nat (length (searchResult d f)) in
  let clicks := Z.to_nat (ceilDiv n (BOOKS_PER_PAGE d) - 1) in
  let st :=
    fold_left (handle d) (repeat ShowMore clicks) (onSearchSubmit d f st0) in
  matches st = searchResult d f /\
  list_items (doc st) = map (createBookElement d) (searchResult d f).
Proof.
intros Hps n clicks st.
destruct (clicks_page_matches clicks (onSearchSubmit d f st0)) as [Hp Hm].
fold st in Hp, Hm. simpl in Hp, Hm.
destruct (fold_handle_invariant (repeat ShowMore clicks)
            (onSearchSubmit d f st0)) as [_ Hitems];
  [lia | apply onSearchSubmit_invariant; lia |].
fold st in Hitems. split; [exact Hm|].
rewrite Hitems, Hm, Hp. f_equal. apply take_ge.
pose proof (ceilDiv_covers n (BOOKS_PER_PAGE d) Hps). fold n. nia.
Qed.

End Pager.

Lemma C3_rendered_count_witness :
  Z.of_nat (length (list_items (doc (run sampleData [ShowMore; ShowMore])))) =
  Z.min (page (run sampleData [ShowMore; ShowMore]) * BOOKS_PER_PAGE sampleData)
        (Z.of_nat (length (matches (run sampleData [ShowMore; ShowMore])))).
Proof.
apply (C3_rendered_count sampleData [ShowMore; ShowMore]).
simpl. lia.
Defined.

Lemma C7_show_more_appends_next_block_witness :
  list_items (doc (onShowMore sampleData (init sampleData))) =
    list_items (doc (init sampleData)) ++
    map (createBookElement sampleData) (nextBlock sampleData (init sampleData)) /\
  nextBlock sampleData (init sampleData) = [theTwoTowers] /\
  page (onShowMore sampleData (init sampleData)) = 2.
Proof.
destruct (C7_show_more_appends_next_block sampleData (init sampleData))
  as (Hitems & _ & _ & _ & Hpage & _).
- simpl. lia.
- simpl. lia.
- unfold moreAvailable, remaining. simpl. lia.
- split; [exact Hitems|]. split; [reflexivity|exact Hpage].
Defined.

Lemma C6_submit_resets_witness :
  page (onSearchSubmit sampleData theFilter (run sampleData [ShowMore])) = 1 /\
  matches (onSearchSubmit sampleData theFilter (run sampleData [ShowMore])) =
    [theHobbit; theTwoTowers] /\
  list_items (doc (onSearchSubmit sampleData theFilter (run sampleData [ShowMore]))) =
    map (createBookElement sampleData)
      (take (Z.to_nat (BOOKS_PER_PAGE sampleData))
         (searchResult sampleData theFilter)).
Proof.
destruct (C6_submit_resets sampleData theFilter (run sampleData [ShowMore]))
  as (Hpage & Hmatches & Hitems).
- simpl. lia.
- split; [exact Hpage|]. split; [rewrite Hmatches; reflexivity|exact Hitems].
Defined.

(** C9 at three books, two per page: after start-up and one reveal
    nothing is left to reveal ([2 * 2 >= 3]), but the button has not
    been disabled, so a further click is delivered, and the handler
    moves the cursor from 2 to 3 (the list stays as it is). *)
Theorem C9_exhausted_reveal_not_prevented :
  page (run sampleData [ShowMore]) * BOOKS_PER_PAGE sampleData >=
    Z.of_nat (length (matches (run sampleData [ShowMore]))) /\
  list_button_disabled (doc (run sampleData [ShowMore])) = false /\
  page (run sampleData [ShowMore]) = 2 /\
  page (onShowMore sampleData (run sampleData [ShowMore])) = 3 /\
  list_items (doc (onShowMore sampleData (run sampleData [ShowMore]))) =
    list_items (doc (run sampleData [ShowMore])).
Proof.
split; [vm_compute; discriminate|]. repeat split.
Qed.

(** C2 at three books, two per page: the button is enabled at
    start-up; after one reveal the cursor is 2, the number remaining
    is [3 - 4 = -1], and the button is still enabled. *)
Theorem C2_button_stays_enabled :
  list_button_disabled (doc (init sampleData)) = false /\
  page (run sampleData [ShowMore]) = 2 /\
  remaining sampleData (page (run sampleData [ShowMore]))
    (matches (run sampleData [ShowMore])) = -1 /\
  list_button_disabled (doc (run sampleData [ShowMore])) = false.
Proof.
repeat split.
Qed.

(** C5 at three books, two per page: after a submission that matches
    all three and [ceil(3 / 2) - 1 = 1] reveal, every match is in the
    list, and the button is still enabled. *)
Theorem C5_exhausted_button_enabled :
  Z.to_nat (ceilDiv 3 (BOOKS_PER_PAGE sampleData) - 1) = 1%nat /\
  length (matches (run sampleData [SearchSubmit anyFilter; ShowMore])) = 3%nat /\
  list_items (doc (run sampleData [SearchSubmit anyFilter; ShowMore])) =
    map (createBookElement sampleData)
      (matches (run sampleData [SearchSubmit anyFilter; ShowMore])) /\
  list_button_disabled
    (doc (run sampleData [SearchSubmit anyFilter; ShowMore])) = false.
Proof.
repeat split.
Qed.

(** ** The selection resolver *)

Section SelectionResolver.

Variable d : Data.
Implicit Types (st : State) (path : list Node) (book : Book.t).

(** The identifier taken from a click is never the empty string. *)
Lemma capturedId_truthy path (i : string) :
  capturedId path = Some i -> truthy (capturedId path) = true.
Proof.
unfold capturedId.
destruct (List.find _ path) as [node|] eqn:E; [|discriminate].
apply find_some in E as [_ E]. intros _. exact E.
Qed.

Lemma findBook_first (i : string) book :
  findBook d i = Some book ->
  exists pre post,
    books d = pre ++ book :: post /\
    Book.id book = i /\
    forall b, In b pre -> Book.id b <> i.
Proof.
unfold findBook. induction (books d) as [|b bs IH]; simpl; [discriminate|].
destruct (String.eqb_spec (Book.id b) i) as [E|E].
- intros [= ->]. exists [], bs. repeat split; [assumption|]. intros ? [].
- intros H. destruct (IH H) as (pre & post & -> & Hid & Hpre).
  exists (b :: pre), post. repeat split; [assumption|].
  intros b' [<-|Hin]; [assumption|now apply Hpre].
Qed.

Lemma findBook_found (i : string) :
  (exists book, In book (books d) /\ Book.id book = i) ->
  exists book, findBook d i = Some book.
Proof.
intros (book & Hin & Hid). unfold findBook.
destruct (List.find _ (books d)) as [b|] eqn:E; [now exists b|].
apply (find_none _ _ E) in Hin. apply String.eqb_neq in Hin. contradiction.
Qed.

Lemma findBook_absent (i : string) :
  (forall book, In book (books d) -> Book.id book <> i) ->
  findBook d i = None.
Proof.
intros Hno. unfold findBook.
destruct (List.find _ (books d)) as [b|] eqn:E; [|reflexivity].
apply find_some in E as [Hin E]. apply String.eqb_eq in E.
now apply Hno in Hin.
Qed.

Lemma unique_id (bs : list Book.t) (x y : Book.t) :
  NoDup (map Book.id bs) -> In x bs -> In y bs -> Book.id x = Book.id y -> x = y.
Proof.
induction bs as [|b bs IH]; simpl; [intros _ []|].
intros Hnd Hx Hy Hid. apply NoDup_cons in Hnd as [Hb Hnd].
assert (forall z, In z bs -> Book.id z <> Book.id b) as Hfresh.
{ intros z Hz E. apply Hb. rewrite <- E.
  apply list_elem_of_In. now apply in_map. }
destruct Hx as [->|Hx], Hy as [->|Hy].
- reflexivity.
- exfalso. now apply (Hfresh y Hy).
- exfalso. now apply (Hfresh x Hx).
- now apply IH.
Qed.

Lemma onListItemsClick_found path st (i : string) book :
  capturedId path = Some i ->
  findBook d i = Some book ->
  onListItemsClick d path st =
  {| page := page st; matches := matches st; doc := openDetail d book (doc st) |}.
Proof.
intros Hcap Hfind. unfold onListItemsClick.
rewrite (capturedId_truthy path i Hcap), Hcap. simpl. now rewrite Hfind.
Qed.

(** C8: the identifier taken from a click is looked up in [books],
    whatever the current matches.  If the dataset has a record with
    that identifier, the detail panel opens on the fields of the first
    such record, which is the record itself when identifiers are
    unique, and nothing else changes.  If no record has the
    identifier, the state stays as it is.  The handler is total, so no
    error is raised. *)
Theorem C8_selection_resolver path st (i : string) :
  capturedId path = Some i ->
  (forall book,
      NoDup (map Book.id (books d)) ->
      In book (books d) -> Book.id book = i ->
      selected d book st (onListItemsClick d path st)) /\
  ((exists book, In book (books d) /\ Book.id book = i) ->
   exists pre book post,
     books d = pre ++ book :: post /\
     Book.id book = i /\
     (forall b, In b pre -> Book.id b <> i) /\
     selected d book st (onListItemsClick d path st)) /\
  ((forall book, In book (books d) -> Book.id book <> i) ->
   onListItemsClick d path st = st).
Proof.
intros Hcap.
assert ((exists book, In book (books d) /\ Book.id book = i) ->
        exists pre book post,
          books d = pre ++ book :: post /\
          Book.id book = i /\
          (forall b, In b pre -> Book.id b <> i) /\
          selected d book st (onListItemsClick d path st)) as Hfirst.
{ intros Hex. destruct (findBook_found i Hex) as [book Hfind].
  destruct (findBook_first i book Hfind) as (pre & post & Hbooks & Hid & Hpre).
  exists pre, book, post. repeat split; try assumption;
    now rewrite (onListItemsClick_found path st i book Hcap Hfind). }
split; [|split; [exact Hfirst|]].
- intros book Hnd Hin Hid.
  destruct Hfirst as (pre & b & post & Hbooks & Hb & _ & Hsel);
    [now exists book|].
  assert (b = book) as <-; [|exact Hsel].
  apply (unique_id (books d)); try assumption; [|congruence].
  rewrite Hbooks. apply in_or_app. right. now left.
- intros Hno. unfold onListItemsClick.
  rewrite (capturedId_truthy path i Hcap), Hcap. simpl.
  now rewrite (findBook_absent i Hno).
Qed.

End SelectionResolver.

Lemma C8_selection_resolver_witness :
  selected sampleData dune
    (run sampleData [SearchSubmit theFilter])
    (onListItemsClick sampleData (clickOn "b2")
       (run sampleData [SearchSubmit theFilter])) /\
  onListItemsClick sampleData (clickOn "b9") (init sampleData) =
    init sampleData.
Proof.
split.
- apply (proj1 (C8_selection_resolver sampleData (clickOn "b2")
                  (run sampleData [SearchSubmit theFilter]) "b2" eq_refl)).
  + apply (bool_decide_unpack _). vm_compute. exact I.
  + simpl. auto.
  + reflexivity.
- apply (proj2 (proj2 (C8_selection_resolver sampleData (clickOn "b9")
                         (init sampleData) "b9" eq_refl))).
  intros book H. simpl in H.
  destruct H as [<-|[<-|[<-|[]]]]; discriminate.
Defined.

(** ** More about the pager: what every reachable state satisfies *)

Section PagerStates.

Variable d : Data.
Implicit Types (st : State) (f : Filters.t) (ev : Event) (evs : list Event).

Lemma slice_sublist {A : Type} (l : list A) (a b : Z) :
  JsArray.slice l a b `sublist_of` l.
Proof.
unfold JsArray.slice. etrans; [apply sublist_take|apply sublist_drop].
Qed.

Lemma slice_In {A : Type} (l : list A) (a b : Z) (x : A) :
  In x (JsArray.slice l a b) -> In x l.
Proof.
intros H. apply list_elem_of_In. apply list_elem_of_In in H.
exact (elem_of_sublist _ _ _ H (slice_sublist l a b)).
Qed.

Lemma ltb_one_leb_zero (x : Z) : (x <? 1) = (x <=? 0).
Proof. destruct (Z.ltb_spec x 1), (Z.leb_spec x 0); lia || reflexivity. Qed.

(** The count and the flag of the button, as functions of the matches. *)
Lemma button_step st ev :
  list_button_remaining (doc st) =
    Z.of_nat (length (matches st)) - BOOKS_PER_PAGE d ->
  list_button_disabled (doc st) =
    (Z.of_nat (length (matches st)) - BOOKS_PER_PAGE d <=? 0) ->
  list_button_remaining (doc (handle d st ev)) =
    Z.of_nat (length (matches (handle d st ev))) - BOOKS_PER_PAGE d /\
  list_button_disabled (doc (handle d st ev)) =
    (Z.of_nat (length (matches (handle d st ev))) - BOOKS_PER_PAGE d <=? 0).
Proof.
intros Hrem Hdis. destruct ev as [| | |f| |path]; simpl; try (split; assumption).
- unfold remaining. rewrite ltb_one_leb_zero, Z.mul_1_l. split; reflexivity.
- unfold onListItemsClick.
  destruct (truthy (capturedId path)); [|split; assumption].
  destruct (findBook d _); split; assumption.
Qed.

(** X1: after start-up and any sequence of events, the count on the
    show-more button is the number of matches less one page, and the
    button is disabled exactly when that count is not positive: both
    describe the first page of the current matches, however many
    reveals have followed. *)
Theorem X1_button_reflects_first_page evs :
  list_button_remaining (doc (run d evs)) =
    Z.of_nat (length (matches (run d evs))) - BOOKS_PER_PAGE d /\
  list_button_disabled (doc (run d evs)) =
    (Z.of_nat (length (matches (run d evs))) - BOOKS_PER_PAGE d <=? 0).
Proof.
unfold run.
assert (list_button_remaining (doc (init d)) =
          Z.of_nat (length (matches (init d))) - BOOKS_PER_PAGE d /\
        list_button_disabled (doc (init d)) =
          (Z.of_nat (length (matches (init d))) - BOOKS_PER_PAGE d <=? 0)) as Hinit.
{ simpl. unfold remaining. rewrite Z.mul_1_l. split; reflexivity. }
revert Hinit. generalize (init d) as st.
induction evs as [|ev evs IH]; intros st [Hrem Hdis]; simpl.
- split; assumption.
- apply IH. now apply button_step.
Qed.

Lemma page_counts_from st evs :
  page (fold_left (handle d) evs st) =
  1 + fold_left countClick evs (page st - 1).
Proof.
revert st. induction evs as [|ev evs IH]; intros st; simpl; [lia|].
rewrite IH. do 2 f_equal.
destruct ev as [| | |f| |path]; simpl; try lia.
unfold onListItemsClick.
destruct (truthy (capturedId path)); [|lia].
destruct (findBook d _); simpl; lia.
Qed.

(** X2: the cursor is one more than the number of show-more events
    since the last filter submission (since start-up if there was
    none); no other event moves it, and reveals past the end of the
    matches still count. *)
Theorem X2_page_counts_reveals evs :
  page (run d evs) = 1 + clicksSinceSubmit evs.
Proof.
unfold run, clicksSinceSubmit. rewrite page_counts_from. reflexivity.
Qed.

(** Where the matches and the previews of the list come from. *)
Lemma origin_step st ev :
  matches st `sublist_of` books d ->
  (forall p, In p (list_items (doc st)) ->
     exists book, In book (matches st) /\ p = createBookElement d book) ->
  matches (handle d st ev) `sublist_of` books d /\
  (forall p, In p (list_items (doc (handle d st ev))) ->
     exists book, In book (matches (handle d st ev)) /\
                  p = createBookElement d book).
Proof.
intros Hsub Hitems.
assert (forall ms a b p,
          In p (map (createBookElement d) (JsArray.slice ms a b)) ->
          exists book, In book ms /\ p = createBookElement d book) as Hslice.
{ intros ms a b p Hp. apply in_map_iff in Hp as (book & <- & Hin).
  exists book. split; [now apply slice_In in Hin|reflexivity]. }
destruct ev as [| | |f| |path]; simpl; try (split; assumption).
- split; [apply filter_sublist|]. intros p Hp. now apply Hslice in Hp.
- split; [assumption|]. intros p Hp.
  apply in_app_or in Hp as [Hp|Hp]; [now apply Hitems|now apply Hslice in Hp].
- unfold onListItemsClick.
  destruct (truthy (capturedId path)); [|split; assumption].
  destruct (findBook d _); split; assumption.
Qed.

Lemma origin_run evs :
  matches (run d evs) `sublist_of` books d /\
  (forall p, In p (list_items (doc (run d evs))) ->
     exists book, In book (matches (run d evs)) /\ p = createBookElement d book).
Proof.
unfold run.
assert (matches (init d) `sublist_of` books d /\
        (forall p, In p (list_items (doc (init d))) ->
           exists book, In book (matches (init d)) /\
                        p = createBookElement d book)) as Hinit.
{ split; [reflexivity|]. simpl. intros p Hp.
  apply in_map_iff in Hp as (book & <- & Hin).
  exists book. split; [now apply slice_In in Hin|reflexivity]. }
revert Hinit. generalize (init d) as st.
induction evs as [|ev evs IH]; intros st [Hsub Hitems]; simpl.
- split; assumption.
- apply IH. now apply origin_step.
Qed.

(** X3: after start-up and any sequence of events, for any page size,
    the matches are a subsequence of the dataset, and every preview in
    the list is the preview of one of the current matches, hence of a
    book of the dataset. *)
Theorem X3_list_shows_matches evs :
  matches (run d evs) `sublist_of` books d /\
  (forall p, In p (list_items (doc (run d evs))) ->
     exists book,
       In book (matches (run d evs)) /\ In book (books d) /\
       p = createBookElement d book).
Proof.
destruct (origin_run evs) as [Hsub Hitems]. split; [assumption|].
intros p Hp. destruct (Hitems p Hp) as (book & Hin & ->).
exists book. repeat split; [assumption|].
apply list_elem_of_In. apply list_elem_of_In in Hin.
exact (elem_of_sublist _ _ _ Hin Hsub).
Qed.

Lemma capturedId_inner (inner outer : list Node) (i : string) :
  Forall (fun node => truthy (dataset_preview node) = false) inner ->
  i <> "" ->
  capturedId (inner ++ {| dataset_preview := Some i |} :: outer) = Some i.
Proof.
intros Hinner Hi. unfold capturedId.
induction Hinner as [|node inner Hnode _ IH]; simpl.
- destruct (String.eqb_spec i ""); [contradiction|reflexivity].
- now rewrite Hnode.
Qed.

(** X4: in every reachable state, a click on a preview of the list
    whose identifier is not the empty string (a click whose path meets
    no identifier before the preview's) opens the detail panel on a
    book of the dataset with the preview's identifier and changes
    nothing else (the cursor, the matches, the list, the button, the
    message and the search overlay stay); with unique identifiers it
    is the very book that the preview was made from. *)
Theorem X4_rendered_preview_opens evs (p : Preview) (inner outer : list Node) :
  In p (list_items (doc (run d evs))) ->
  data_preview p <> "" ->
  Forall (fun node => truthy (dataset_preview node) = false) inner ->
  exists book,
    In book (books d) /\
    Book.id book = data_preview p /\
    opensOnly d book (run d evs)
      (onListItemsClick d
         (inner ++ {| dataset_preview := Some (data_preview p) |} :: outer)
         (run d evs)) /\
    (NoDup (map Book.id (books d)) -> p = createBookElement d book).
Proof.
intros Hp Hid Hinner.
destruct (origin_run evs) as [Hsub Hitems].
destruct (Hitems p Hp) as (shown & Hin & ->). simpl in *.
assert (In shown (books d)) as Hbooks.
{ apply list_elem_of_In. apply list_elem_of_In in Hin.
  exact (elem_of_sublist _ _ _ Hin Hsub). }
destruct (findBook_found d (Book.id shown)) as [book Hfind];
  [now exists shown|].
destruct (findBook_first d _ _ Hfind) as (pre & post & Hsplit & Hbook & _).
assert (In book (books d)) as Hbook_in.
{ rewrite Hsplit. apply in_or_app. right. now left. }
exists book. split; [assumption|]. split; [assumption|]. split.
- rewrite (onListItemsClick_found d _ (run d evs) (Book.id shown) book
             (capturedId_inner inner outer _ Hinner Hid) Hfind).
  repeat split.
- intros Hnd. f_equal.
  apply (unique_id (books d)); assumption || congruence.
Qed.

End PagerStates.

(** ** More about submissions and reveals *)

Section Submissions.

Variable d : Data.
Implicit Types (st : State) (f : Filters.t) (ev : Event) (book : Book.t).

Lemma filter_all {A : Type} (g : A -> bool) (l : list A) :
  (forall x, In x l -> g x = true) -> List.filter g l = l.
Proof.
intros H. apply forallb_filter_id. now apply forallb_forall.
Qed.

Lemma searchResult_unconstrained f :
  allWhiteSpace (Filters.title f) = true ->
  Filters.author f = "any" -> Filters.genre f = "any" ->
  searchResult d f = books d.
Proof.
intros Ht Ha Hg. apply filter_all. intros book _.
apply filterCallback_iff. repeat split.
- left. now apply trim_empty_iff.
- now left.
- now left.
Qed.

(** X5: submitting the search form with a title of white space only
    (or none), author 'any' and genre 'any' gives, from any state, the
    cursor, the matches, the list and the button of start-up. *)
Theorem X5_unconstrained_submit_is_startup f st :
  allWhiteSpace (Filters.title f) = true ->
  Filters.author f = "any" -> Filters.genre f = "any" ->
  page (onSearchSubmit d f st) = page (init d) /\
  matches (onSearchSubmit d f st) = matches (init d) /\
  list_items (doc (onSearchSubmit d f st)) = list_items (doc (init d)) /\
  list_button_disabled (doc (onSearchSubmit d f st)) =
    list_button_disabled (doc (init d)) /\
  list_button_remaining (doc (onSearchSubmit d f st)) =
    list_button_remaining (doc (init d)).
Proof.
intros Ht Ha Hg. simpl.
rewrite (searchResult_unconstrained f Ht Ha Hg).
unfold remaining. rewrite ltb_one_leb_zero, Z.mul_1_l.
repeat split.
Qed.

(** X6: after a filter submission the "no results" message is shown
    exactly when no book of the dataset satisfies the three
    predicates; the list is then empty and the button disabled for
    any page size that is not negative. *)
Theorem X6_no_results_message f st :
  (list_message_show (doc (onSearchSubmit d f st)) = true <->
   forall book, In book (books d) ->
     ~ (titleAccepted f book /\ authorAccepted f book /\ genreAccepted f book)) /\
  (list_message_show (doc (onSearchSubmit d f st)) = true ->
   matches (onSearchSubmit d f st) = [] /\
   list_items (doc (onSearchSubmit d f st)) = [] /\
   (0 <= BOOKS_PER_PAGE d ->
    list_button_disabled (doc (onSearchSubmit d f st)) = true)).
Proof.
assert (list_message_show (doc (onSearchSubmit d f st)) = true <->
        searchResult d f = []) as Hshow.
{ simpl. rewrite Z.ltb_lt. destruct (searchResult d f); simpl; split;
    intros H; try reflexivity; try discriminate; lia. }
split.
- rewrite Hshow. split.
  + intros Hnil book Hin Hacc.
    assert (In book (searchResult d f)) as Hres.
    { apply filter_In. split; [assumption|now apply filterCallback_iff]. }
    rewrite Hnil in Hres. destruct Hres.
  + intros Hnone. destruct (searchResult d f) as [|book rest] eqn:E;
      [reflexivity|exfalso].
    assert (In book (searchResult d f)) as Hres by (rewrite E; now left).
    apply filter_In in Hres as [Hin Hcb].
    apply (Hnone book Hin). now apply filterCallback_iff.
- intros H. apply Hshow in H. simpl. rewrite H.
  split; [reflexivity|]. split.
  + rewrite slice_beyond by (simpl; lia). reflexivity.
  + intros Hps. unfold remaining. simpl. apply Z.ltb_lt. lia.
Qed.

(** X10: after a filter submission, [k] reveals put every match in
    the list exactly when [k] is at least
    [ceil(|result| / BOOKS_PER_PAGE) - 1], for a positive page size:
    that many reveals are enough and fewer are not. *)
Theorem X10_reveals_needed f st (k : nat) :
  0 < BOOKS_PER_PAGE d ->
  list_items
    (doc (fold_left (handle d) (repeat ShowMore k) (onSearchSubmit d f st))) =
  map (createBookElement d) (searchResult d f) <->
  ceilDiv (Z.of_nat (length (searchResult d f))) (BOOKS_PER_PAGE d) - 1
    <= Z.of_nat k.
Proof.
intros Hps.
destruct (clicks_page_matches d k (onSearchSubmit d f st)) as [Hp Hm].
destruct (fold_handle_invariant d (repeat ShowMore k)
            (onSearchSubmit d f st)) as [_ Hitems];
  [lia | apply onSearchSubmit_invariant; lia |].
rewrite Hitems, Hm, Hp. simpl.
set (n := Z.of_nat (length (searchResult d f))).
assert (ceilDiv n (BOOKS_PER_PAGE d) - 1 <= Z.of_nat k <->
        n <= (1 + Z.of_nat k) * BOOKS_PER_PAGE d) as ->.
{ unfold ceilDiv. split; intros H.
  - pose proof (Z.mul_succ_div_gt (n + BOOKS_PER_PAGE d - 1)
                  (BOOKS_PER_PAGE d) Hps). nia.
  - assert ((n + BOOKS_PER_PAGE d - 1) / BOOKS_PER_PAGE d
            < 1 + Z.of_nat k + 1); [|lia].
    apply Z.div_lt_upper_bound; [assumption|nia]. }
split.
- intros H. apply (f_equal length) in H.
  rewrite !length_map, length_take in H. subst n. lia.
- intros H. f_equal. apply take_ge. subst n. lia.
Qed.

(** X11: the events other than a filter submission and show-more
    (opening and closing the search overlay, closing the detail
    panel, a click in the list) leave the cursor, the matches, the
    list, the button and the message as they are. *)
Theorem X11_other_events_keep_pager st ev :
  pagerEvent ev = false ->
  page (handle d st ev) = page st /\
  matches (handle d st ev) = matches st /\
  list_items (doc (handle d st ev)) = list_items (doc st) /\
  list_button_disabled (doc (handle d st ev)) = list_button_disabled (doc st) /\
  list_button_remaining (doc (handle d st ev)) = list_button_remaining (doc st) /\
  list_message_show (doc (handle d st ev)) = list_message_show (doc st).
Proof.
intros Hev. destruct ev as [| | |f| |path]; try discriminate Hev; simpl;
  try (repeat split; fail).
unfold onListItemsClick.
destruct (truthy (capturedId path)); [|repeat split].
destruct (findBook d _); repeat split.
Qed.

End Submissions.

(** ** More about the filter *)

Section FilterOrder.

Variable d : Data.
Implicit Types (f : Filters.t) (book : Book.t).

Local Open Scope string_scope.

Lemma append_assoc (a b c : string) : (a ++ b) ++ c = a ++ (b ++ c).
Proof.
induction a as [|x a IH]; [reflexivity|].
exact (f_equal (String x) IH).
Qed.

Lemma allWhiteSpace_app (a b : string) :
  allWhiteSpace (a ++ b) = allWhiteSpace a && allWhiteSpace b.
Proof.
induction a as [|x a IH]; [reflexivity|].
change (isWhiteSpace x && allWhiteSpace (a ++ b) =
        isWhiteSpace x && allWhiteSpace a && allWhiteSpace b).
now rewrite IH, andb_assoc.
Qed.

Lemma isWhiteSpace_lowerChar (c : ascii) :
  isWhiteSpace (lowerChar c) = isWhiteSpace c.
Proof.
destruct c as [[] [] [] [] [] [] [] []]; vm_compute; reflexivity.
Qed.

Lemma allWhiteSpace_toLowerCase (s : string) :
  allWhiteSpace (toLowerCase s) = allWhiteSpace s.
Proof.
induction s as [|c s IH]; simpl; [reflexivity|].
now rewrite isWhiteSpace_lowerChar, IH.
Qed.

Lemma trim_eqb_allWhiteSpace (s : string) :
  String.eqb (trim s) "" = allWhiteSpace s.
Proof.
destruct (String.eqb_spec (trim s) "") as [E|E];
  destruct (allWhiteSpace s) eqn:W; try reflexivity.
- apply trim_empty_iff in E. congruence.
- apply trim_empty_iff in W. contradiction.
Qed.

Lemma filter_sublist_impl {A : Type} (g h : A -> bool) (l : list A) :
  (forall x, In x l -> g x = true -> h x = true) ->
  List.filter g l `sublist_of` List.filter h l.
Proof.
induction l as [|x l IH]; intros H; simpl; [constructor|].
assert (List.filter g l `sublist_of` List.filter h l) as Hrec.
{ apply IH. intros y Hy. apply H. now right. }
destruct (g x) eqn:G.
- rewrite (H x (or_introl eq_refl) G). now constructor.
- destruct (h x); [now constructor|assumption].
Qed.

(** X7: the title query is compared without regard to its own case:
    two submissions whose title queries are equal up to case, with the
    same author and genre, have the same result.  (Author and genre
    are compared exactly.) *)
Theorem X7_query_case_insensitive f1 f2 :
  toLowerCase (Filters.title f1) = toLowerCase (Filters.title f2) ->
  Filters.author f1 = Filters.author f2 ->
  Filters.genre f1 = Filters.genre f2 ->
  searchResult d f1 = searchResult d f2.
Proof.
intros Ht Ha Hg. unfold searchResult. apply filter_ext. intros book.
unfold filterCallback, titleMatch, authorMatch, genreMatch.
rewrite !trim_eqb_allWhiteSpace.
rewrite <- (allWhiteSpace_toLowerCase (Filters.title f1)).
rewrite <- (allWhiteSpace_toLowerCase (Filters.title f2)).
now rewrite Ht, Ha, Hg.
Qed.

Lemma titleMatch_within f1 f2 book :
  queryWithin (Filters.title f1) (Filters.title f2) ->
  titleMatch f2 book = true -> titleMatch f1 book = true.
Proof.
intros (pre & post & Hq). unfold titleMatch.
rewrite !trim_eqb_allWhiteSpace, !orb_true_iff, Hq.
intros [Hws|Hinc].
- left. rewrite !allWhiteSpace_app, !andb_true_iff in Hws. tauto.
- right. apply includes_iff in Hinc as (x & y & Hxy).
  apply includes_iff.
  exists (x ++ toLowerCase pre), (toLowerCase post ++ y).
  rewrite Hxy, !toLowerCase_app, !append_assoc. reflexivity.
Qed.

(** X8: narrowing the query narrows the result.  If the title query
    of one submission occurs inside the title query of another with
    the same author and genre, the result of the longer query is a
    subsequence of the result of the shorter; and the result of any
    submission is a subsequence of the result for its title alone
    (author 'any', genre 'any'). *)
Theorem X8_narrower_query_narrower_result f1 f2 :
  (queryWithin (Filters.title f1) (Filters.title f2) ->
   Filters.author f1 = Filters.author f2 ->
   Filters.genre f1 = Filters.genre f2 ->
   searchResult d f2 `sublist_of` searchResult d f1) /\
  searchResult d f1 `sublist_of` searchResult d (titleOnly f1).
Proof.
split.
- intros Hq Ha Hg. apply filter_sublist_impl. intros book _.
  unfold filterCallback. cbv zeta. rewrite !andb_true_iff.
  intros [[Ht Hau] Hge]. repeat split.
  + now apply (titleMatch_within f1 f2).
  + unfold authorMatch in *. now rewrite Ha.
  + unfold genreMatch in *. now rewrite Hg.
- apply filter_sublist_impl. intros book _.
  unfold filterCallback. cbv zeta. rewrite !andb_true_iff.
  intros [[Ht _] _]. repeat split; assumption || reflexivity.
Qed.

End FilterOrder.

(** ** The two list-item click handlers *)

Section ClickHandlers.

Variable d : Data.
Implicit Types (st : State) (path : list Node) (node : Node).

Lemma bookLoop_set (bs : list Book.t) (preview : string) (b : Book.t) :
  bookLoop bs preview (Some b) = Some b.
Proof. now destruct bs. Qed.

(** The inner loop is [books.find]. *)
Lemma bookLoop_findBook (preview : string) :
  bookLoop (books d) preview None = findBook d preview.
Proof.
unfold findBook. induction (books d) as [|b bs IH]; simpl; [reflexivity|].
destruct (String.eqb (Book.id b) preview); [apply bookLoop_set|exact IH].
Qed.

Lemma pathLoop_set path (b : Book.t) : pathLoop d path (Some b) = Some b.
Proof. now destruct path. Qed.

Lemma onListItemsClick_skip node path st :
  truthy (dataset_preview node) = false ->
  onListItemsClick d (node :: path) st = onListItemsClick d path st.
Proof.
intros H. unfold onListItemsClick, capturedId. simpl. now rewrite H.
Qed.

Lemma capturedId_skip node path :
  truthy (dataset_preview node) = false ->
  capturedId (node :: path) = capturedId path.
Proof. intros H. unfold capturedId. simpl. now rewrite H. Qed.

Lemma onListItemsClick_head node path st :
  truthy (dataset_preview node) = true ->
  onListItemsClick d (node :: path) st =
  match findBook d (default "" (dataset_preview node)) with
  | Some book =>
      {| page := page st; matches := matches st;
         doc := openDetail d book (doc st) |}
  | None => st
  end.
Proof.
intros H. unfold onListItemsClick, capturedId. simpl. now rewrite H, H.
Qed.

(** X12: the click handler of [scripts.js], which walks the path
    itself, opens the detail panel on the first node whose identifier
    names a book: it does what the handler with [find] does on the
    path without the nodes whose identifier names no book.  The two
    handlers give the same state whenever the first identifier on the
    path names a book, or the path has no identifier. *)
Theorem X12_click_handlers path st :
  onListItemsClickLoop d path st =
    onListItemsClick d (List.filter (resolves d) path) st /\
  ((forall i, capturedId path = Some i ->
      exists book, findBook d i = Some book) ->
   onListItemsClickLoop d path st = onListItemsClick d path st).
Proof.
unfold onListItemsClickLoop. split.
- induction path as [|node path IH]; [reflexivity|].
  simpl. unfold resolves at 1.
  destruct (truthy (dataset_preview node)) eqn:T; simpl.
  + rewrite bookLoop_findBook.
    destruct (findBook d (default "" (dataset_preview node))) as [b|] eqn:F.
    * rewrite pathLoop_set, (onListItemsClick_head _ _ _ T), F. reflexivity.
    * exact IH.
  + rewrite (onListItemsClick_skip _ _ _ T). exact IH.
- induction path as [|node path IH]; intros Hres; [reflexivity|].
  simpl. destruct (truthy (dataset_preview node)) eqn:T.
  + rewrite bookLoop_findBook, (onListItemsClick_head _ _ _ T).
    destruct (dataset_preview node) as [i|] eqn:P; [|discriminate T].
    destruct (Hres i) as [b F].
    { unfold capturedId. simpl. now rewrite P, T. }
    simpl. rewrite F. now rewrite pathLoop_set.
  + rewrite (onListItemsClick_skip _ _ _ T). apply IH.
    intros i Hi. apply Hres. now rewrite (capturedId_skip _ _ T).
Qed.

End ClickHandlers.

(** ** The theme *)

Section ThemeFacts.

Import Theme.

Lemma updateTheme_colors (theme : option string) (s : Theme.t) :
  (theme = Some "night" ->
   color_dark (updateTheme theme s) = "255, 255, 255" /\
   color_light (updateTheme theme s) = "10, 10, 20") /\
  (theme <> Some "night" ->
   color_dark (updateTheme theme s) = "10, 10, 20" /\
   color_light (updateTheme theme s) = "255, 255, 255").
Proof.
unfold updateTheme, isNight. simpl. destruct theme as [t|].
- destruct (String.eqb_spec t "night") as [->|Hne]; split;
    intros H; try (split; reflexivity); congruence.
- split; [discriminate|]. intros _. split; reflexivity.
Qed.

Lemma colors_follow (evs : list Theme.Event) (s : Theme.t) (cur : option string) :
  color_dark s = color_dark (updateTheme cur s) ->
  color_light s = color_light (updateTheme cur s) ->
  color_dark (fold_left Theme.handle evs s) =
    color_dark (updateTheme (themeInForce cur evs) s) /\
  color_light (fold_left Theme.handle evs s) =
    color_light (updateTheme (themeInForce cur evs) s).
Proof.
revert s cur. induction evs as [|ev evs IH]; intros s cur Hd Hl;
  [split; assumption|].
unfold themeInForce. simpl. destruct ev as [| |theme]; simpl.
- apply (IH (setOverlay true s) cur); assumption.
- apply (IH (setOverlay false s) cur); assumption.
- apply (IH (setOverlay false (updateTheme theme s)) theme); reflexivity.
Qed.

(** X13: after start-up and any sequence of settings events the two
    colours are those of the theme in force, that of the last
    submission, or of start-up ('night' if the host prefers a dark
    scheme, 'day' if not or if [matchMedia] is missing): the night
    pair for the theme 'night', the day pair for every other value,
    and for a submission without a theme.  The two colours are never
    equal. *)
Theorem X13_colors_of_theme_in_force
    (matchMedia : option bool) (s0 : Theme.t) (evs : list Theme.Event) :
  (themeInForce (Some (if default false matchMedia then "night" else "day")) evs
     = Some "night" ->
   color_dark (Theme.run matchMedia s0 evs) = "255, 255, 255" /\
   color_light (Theme.run matchMedia s0 evs) = "10, 10, 20") /\
  (themeInForce (Some (if default false matchMedia then "night" else "day")) evs
     <> Some "night" ->
   color_dark (Theme.run matchMedia s0 evs) = "10, 10, 20" /\
   color_light (Theme.run matchMedia s0 evs) = "255, 255, 255") /\
  color_dark (Theme.run matchMedia s0 evs) <>
  color_light (Theme.run matchMedia s0 evs).
Proof.
set (start := Some (if default false matchMedia then "night" else "day")).
destruct (colors_follow evs (initializeTheme matchMedia s0) start)
  as [Hd Hl]; [reflexivity..|].
unfold Theme.run. rewrite Hd, Hl.
destruct (updateTheme_colors (themeInForce start evs)
            (initializeTheme matchMedia s0)) as [Hnight Hday].
split; [exact Hnight|]. split; [exact Hday|].
destruct (option_eq_dec (themeInForce start evs) (Some "night")) as [E|E].
- destruct (Hnight E) as [-> ->]. discriminate.
- destruct (Hday E) as [-> ->]. discriminate.
Qed.

End ThemeFacts.

(** ** The dropdowns *)

Section Dropdowns.

Variable d : Data.

Lemma option_loop (entries : list (string * string)) (acc : list OptionElement) :
  fold_left
    (fun fragment '(id, name) =>
       fragment ++ [ {| option_value := id; option_text := name |} ])
    entries acc =
  acc ++ map optionOf entries.
Proof.
revert acc. induction entries as [|[k v] entries IH]; intros acc; simpl.
- now rewrite app_nil_r.
- rewrite IH, <- app_assoc. reflexivity.
Qed.

Lemma populateDropdown_eq entries (defaultOption : string) (select : list OptionElement) :
  populateDropdown entries defaultOption select =
  select ++
  {| option_value := "any"; option_text := defaultOption |} ::
  map optionOf entries.
Proof. unfold populateDropdown. now rewrite option_loop. Qed.

(** X15: [populateDropdown] keeps the options that the element has
    and appends the 'any' option with the default text, then one
    option per entry, in the order of the entries: called on an empty
    element it gives [1 + |entries|] options, the first is 'any', and
    option [k + 1] has the key and the name of entry [k]. *)
Theorem X15_dropdown_options
    (entries : list (string * string)) (defaultOption : string)
    (select : list OptionElement) :
  take (length select) (populateDropdown entries defaultOption select) = select /\
  length (populateDropdown entries defaultOption select) =
    (length select + S (length entries))%nat /\
  populateDropdown entries defaultOption select !! length select =
    Some {| option_value := "any"; option_text := defaultOption |} /\
  (forall k : nat,
      populateDropdown entries defaultOption select !! (length select + S k)%nat =
      optionOf <$> entries !! k).
Proof.
rewrite populateDropdown_eq. repeat split.
- now rewrite take_app_length.
- rewrite length_app. simpl. now rewrite length_map.
- rewrite lookup_app_r by lia. now rewrite Nat.sub_diag.
- intros k. rewrite lookup_app_r by lia.
  replace (length select + S k - length select)%nat with (S k) by lia.
  simpl. rewrite <- list_lookup_fmap. reflexivity.
Qed.

Lemma searchResult_authorChoice (o : OptionElement) :
  option_value o <> "any" ->
  searchResult d (authorChoice o) =
  List.filter (fun book => String.eqb (Book.author book) (option_value o))
    (books d).
Proof.
intros Hne. unfold searchResult. apply filter_ext. intros book.
unfold filterCallback, titleMatch, authorMatch, genreMatch. simpl.
apply String.eqb_neq in Hne. rewrite Hne. simpl. now rewrite andb_true_r.
Qed.

(** X16: choosing in the author dropdown, with nothing else filled
    in.  The first option gives the whole dataset.  The option of an
    entry whose key is not 'any' gives exactly the books with that
    author key, in dataset order; the option of an entry whose key is
    'any' cannot be told from the first option and gives the whole
    dataset too. *)
Theorem X16_author_choice
    (entries : list (string * string)) (defaultOption : string)
    (k : nat) (o : OptionElement) :
  (populateDropdown entries defaultOption [] !! 0%nat = Some o ->
   searchResult d (authorChoice o) = books d) /\
  (populateDropdown entries defaultOption [] !! S k = Some o ->
   option_value o <> "any" ->
   (exists name, entries !! k = Some (option_value o, name)) /\
   searchResult d (authorChoice o) =
     List.filter (fun book => String.eqb (Book.author book) (option_value o))
       (books d)) /\
  (populateDropdown entries defaultOption [] !! S k = Some o ->
   option_value o = "any" ->
   searchResult d (authorChoice o) = books d).
Proof.
rewrite populateDropdown_eq. simpl. split; [|split].
- intros [= <-]. now apply searchResult_unconstrained.
- intros Ho Hne. split; [|now apply searchResult_authorChoice].
  change ((optionOf <$> entries) !! k = Some o) in Ho.
  apply list_lookup_fmap_Some in Ho as ([key name] & -> & Hentry).
  now exists name.
- intros _ Hany. now apply searchResult_unconstrained.
Qed.

End Dropdowns.

(** ** The preview component *)

Section PreviewComponent.

Import BookPreview.

Lemma updateComponent_inSync (el : BookPreview.t) : inSync (updateComponent el).
Proof. repeat split. Qed.

Lemma unobserved_names (name : string) :
  observed name = false ->
  name <> "title" /\ name <> "author" /\ name <> "image".
Proof.
unfold observed, observedAttributes. simpl. rewrite !orb_false_iff.
intros (Ht & Ha & Hi & _). rewrite !String.eqb_neq in *. tauto.
Qed.

Lemma apply_inSync (el : BookPreview.t) (op : Op) :
  inSync el \/ renders op = true -> inSync (BookPreview.apply el op).
Proof.
intros H. destruct op as [name value|name|]; simpl in *.
- destruct (observed name) eqn:O; [apply updateComponent_inSync|].
  destruct H as [(Ht & Ha & Hi)|H]; [|discriminate].
  destruct (unobserved_names name O) as (Nt & Na & Ni).
  unfold inSync, getAttribute. simpl.
  rewrite !lookup_insert_ne by assumption. repeat split; assumption.
- destruct (observed name) eqn:O; [apply updateComponent_inSync|].
  destruct H as [(Ht & Ha & Hi)|H]; [|discriminate].
  destruct (unobserved_names name O) as (Nt & Na & Ni).
  unfold inSync, getAttribute. simpl.
  rewrite !lookup_delete_ne by assumption. repeat split; assumption.
- apply updateComponent_inSync.
Qed.

Lemma apply_unobserved (el : BookPreview.t) (op : Op) :
  renders op = false ->
  title_textContent (BookPreview.apply el op) = title_textContent el /\
  author_textContent (BookPreview.apply el op) = author_textContent el /\
  image_src (BookPreview.apply el op) = image_src el.
Proof.
intros H. destruct op as [name value|name|]; simpl in *;
  [rewrite H..|discriminate]; repeat split.
Qed.

(** X17: the preview component shows its attributes.  Once it has
    been connected, or one of its observed attributes has been set or
    removed, its title and author texts are the current 'title' and
    'author' attributes, the empty text for a missing one, and the
    source of its image is the current 'image' attribute, the string
    "null" for a missing one; this stays so under every further
    operation.  Operations on other attributes alone leave the three
    parts as they were. *)
Theorem X17_preview_shows_attributes (ops : list Op) (el : BookPreview.t) :
  (inSync el \/ existsb renders ops = true ->
   inSync (fold_left BookPreview.apply ops el)) /\
  (existsb renders ops = false ->
   title_textContent (fold_left BookPreview.apply ops el) = title_textContent el /\
   author_textContent (fold_left BookPreview.apply ops el) = author_textContent el /\
   image_src (fold_left BookPreview.apply ops el) = image_src el).
Proof.
revert el. induction ops as [|op ops IH]; intros el; simpl.
- split; [intros [H|H]; [exact H|discriminate]|]. intros _. repeat split.
- destruct (IH (BookPreview.apply el op)) as [IHs IHk]. split.
  + intros H. apply IHs. rewrite orb_true_iff in H.
    destruct H as [H|[H|H]].
    * left. apply apply_inSync. now left.
    * left. apply apply_inSync. now right.
    * now right.
  + intros H. apply orb_false_iff in H as [Hop Hops].
    destruct (IHk Hops) as (-> & -> & ->).
    now apply apply_unobserved.
Qed.

End PreviewComponent.

Section ClicksElsewhere.

Variable d : Data.

(** X18: a click whose path carries no identifier, or only empty
    ones (a click between the previews, or on the preview of a book
    whose identifier is the empty string), changes nothing, with
    either click handler. *)
Theorem X18_click_without_identifier (path : list Node) (st : State) :
  Forall (fun node => truthy (dataset_preview node) = false) path ->
  onListItemsClick d path st = st /\ onListItemsClickLoop d path st = st.
Proof.
unfold onListItemsClickLoop.
induction 1 as [|node path Hnode _ [IHfind IHloop]]; [split; reflexivity|].
split.
- now rewrite onListItemsClick_skip.
- simpl. rewrite Hnode. exact IHloop.
Qed.

End ClicksElsewhere.

(** ** The further properties on the small catalog *)

Lemma X3_list_shows_matches_witness :
  exists book,
    In book (matches (run sampleData [ShowMore])) /\
    In book (books sampleData) /\
    createBookElement sampleData theTwoTowers = createBookElement sampleData book.
Proof.
apply (proj2 (X3_list_shows_matches sampleData [ShowMore])).
vm_compute. auto 6.
Defined.

Lemma X4_rendered_preview_opens_witness :
  exists book,
    In book (books sampleData) /\
    Book.id book = "b2" /\
    opensOnly sampleData book (run sampleData [])
      (onListItemsClick sampleData
         ([ {| dataset_preview := None |} ] ++
          {| dataset_preview := Some "b2" |} :: [])
         (run sampleData [])) /\
    (NoDup (map Book.id (books sampleData)) ->
     createBookElement sampleData dune = createBookElement sampleData book).
Proof.
apply (X4_rendered_preview_opens sampleData []
         (createBookElement sampleData dune) [ {| dataset_preview := None |} ] []).
- vm_compute. auto.
- simpl. discriminate.
- repeat constructor.
Defined.

Lemma X5_unconstrained_submit_is_startup_witness :
  page (onSearchSubmit sampleData blankTitleFilter (run sampleData [ShowMore])) = 1 /\
  list_items (doc (onSearchSubmit sampleData blankTitleFilter (run sampleData [ShowMore]))) =
    list_items (doc (init sampleData)).
Proof.
destruct (X5_unconstrained_submit_is_startup sampleData blankTitleFilter
            (run sampleData [ShowMore]))
  as (Hpage & _ & Hitems & _); [reflexivity..|].
split; [exact Hpage|exact Hitems].
Defined.

Lemma X6_no_results_message_witness :
  matches (onSearchSubmit sampleData
             {| Filters.title := "zzz"; Filters.author := "any";
                Filters.genre := "any" |} (init sampleData)) = [] /\
  list_message_show (doc (onSearchSubmit sampleData theFilter (init sampleData))) <> true.
Proof.
split.
- apply (proj2 (X6_no_results_message sampleData
                  {| Filters.title := "zzz"; Filters.author := "any";
                     Filters.genre := "any" |} (init sampleData))).
  reflexivity.
- intros H.
  apply (proj1 (proj1 (X6_no_results_message sampleData theFilter
                         (init sampleData))) H theHobbit).
  + simpl. auto.
  + split; [|split; left; reflexivity].
    right. exists "", "The", " Hobbit". split; reflexivity.
Defined.

Lemma X7_query_case_insensitive_witness :
  searchResult sampleData
    {| Filters.title := "tHE"; Filters.author := "any"; Filters.genre := "any" |} =
  searchResult sampleData theFilter.
Proof.
apply X7_query_case_insensitive; reflexivity.
Defined.

Lemma X8_narrower_query_narrower_result_witness :
  searchResult sampleData
    {| Filters.title := "the t"; Filters.author := "any"; Filters.genre := "any" |}
  `sublist_of` searchResult sampleData theFilter.
Proof.
apply (proj1 (X8_narrower_query_narrower_result sampleData theFilter
                {| Filters.title := "the t"; Filters.author := "any";
                   Filters.genre := "any" |})).
- exists "", " t". reflexivity.
- reflexivity.
- reflexivity.
Defined.

Lemma X10_reveals_needed_witness :
  list_items
    (doc (fold_left (handle sampleData) (repeat ShowMore 1)
            (onSearchSubmit sampleData anyFilter (init sampleData)))) =
  map (createBookElement sampleData) (searchResult sampleData anyFilter) <->
  ceilDiv (Z.of_nat (length (searchResult sampleData anyFilter)))
    (BOOKS_PER_PAGE sampleData) - 1 <= Z.of_nat 1.
Proof.
apply (X10_reveals_needed sampleData anyFilter (init sampleData) 1).
simpl. lia.
Defined.

Lemma X11_other_events_keep_pager_witness :
  page (handle sampleData (run sampleData [ShowMore]) (ListItemsClick (clickOn "b1"))) = 2 /\
  list_items (doc (handle sampleData (run sampleData [ShowMore])
                     (ListItemsClick (clickOn "b1")))) =
    list_items (doc (run sampleData [ShowMore])).
Proof.
destruct (X11_other_events_keep_pager sampleData (run sampleData [ShowMore])
            (ListItemsClick (clickOn "b1")))
  as (Hpage & _ & Hitems & _); [reflexivity|].
split; [exact Hpage|exact Hitems].
Defined.

Lemma X12_click_handlers_witness :
  onListItemsClickLoop sampleData (clickOn "b2") (init sampleData) =
    onListItemsClick sampleData (clickOn "b2") (init sampleData) /\
  onListItemsClickLoop sampleData nestedClick (init sampleData) =
    onListItemsClick sampleData (List.filter (resolves sampleData) nestedClick)
      (init sampleData).
Proof.
split.
- apply (proj2 (X12_click_handlers sampleData (clickOn "b2") (init sampleData))).
  intros i Hi. injection Hi as <-. exists dune. reflexivity.
- apply (proj1 (X12_click_handlers sampleData nestedClick (init sampleData))).
Defined.

Lemma X13_colors_of_theme_in_force_witness :
  Theme.color_dark
    (Theme.run (Some true) blankTheme
       [Theme.HeaderSettings; Theme.SettingsSubmit (Some "sepia")]) = "10, 10, 20" /\
  Theme.color_light
    (Theme.run (Some true) blankTheme
       [Theme.HeaderSettings; Theme.SettingsSubmit (Some "sepia")]) = "255, 255, 255".
Proof.
apply (proj1 (proj2 (X13_colors_of_theme_in_force (Some true) blankTheme
                       [Theme.HeaderSettings; Theme.SettingsSubmit (Some "sepia")]))).
vm_compute. discriminate.
Defined.

Lemma X16_author_choice_witness :
  (exists name,
     sampleAuthorEntries !! 0%nat =
     Some (option_value (optionOf ("a1", "J. R. R. Tolkien")), name)) /\
  searchResult sampleData (authorChoice (optionOf ("a1", "J. R. R. Tolkien"))) =
    [theHobbit; theTwoTowers].
Proof.
destruct (proj1 (proj2 (X16_author_choice sampleData sampleAuthorEntries
                          "All Authors" 0 (optionOf ("a1", "J. R. R. Tolkien")))))
  as [Hentry Hres]; [reflexivity | simpl; discriminate |].
split; [exact Hentry|]. rewrite Hres. reflexivity.
Defined.

Lemma X17_preview_shows_attributes_witness :
  BookPreview.inSync
    (fold_left BookPreview.apply
       [BookPreview.SetAttribute "class" "x"; BookPreview.Connect;
        BookPreview.SetAttribute "title" "Dune"]
       BookPreview.construct) /\
  BookPreview.image_src
    (fold_left BookPreview.apply
       [BookPreview.SetAttribute "class" "x"] BookPreview.construct) = "".
Proof.
split.
- apply (proj1 (X17_preview_shows_attributes
                  [BookPreview.SetAttribute "class" "x"; BookPreview.Connect;
                   BookPreview.SetAttribute "title" "Dune"]
                  BookPreview.construct)).
  right. reflexivity.
- destruct (proj2 (X17_preview_shows_attributes
                     [BookPreview.SetAttribute "class" "x"]
                     BookPreview.construct)) as (_ & _ & Hsrc); [reflexivity|].
  exact Hsrc.
Defined.

Lemma X18_click_without_identifier_witness :
  onListItemsClick sampleData
    [ {| dataset_preview := Some "" |}; {| dataset_preview := None |} ]
    (init sampleData) = init sampleData /\
  onListItemsClickLoop sampleData
    [ {| dataset_preview := Some "" |}; {| dataset_preview := None |} ]
    (init sampleData) = init sampleData.
Proof.
apply (X18_click_without_identifier sampleData).
repeat constructor.
Defined.

Example preview_missing_attributes :
  BookPreview.title_textContent
    (BookPreview.apply BookPreview.construct BookPreview.Connect) = "" /\
  BookPreview.image_src
    (BookPreview.apply BookPreview.construct BookPreview.Connect) = "null".
Proof. split; reflexivity. Qed.
